(** * FiftyOne: experiment utilities and the dataset core they build on

    A shallow embedding of [fiftyone/utils/experiments.py] (the run registry
    for experiments: naming of auxiliary collections, registration, model
    runs, cleanup) and of the dataset / identity-map / schema contract that
    [tests/unittests.py] exercises.

    Python strings are [string]; dictionaries are [gmap]; code that mutates
    the database or raises runs in a state-and-exception monad over an
    explicit world. *)

From Stdlib Require Import String Ascii List Bool Arith Lia.
From stdpp Require Import base option gmap strings list fin_maps.

Open Scope string_scope.

(** ** Python string primitives used by the source *)

Module PyStr.

(** [s.split(sep)] for a one-character separator: the maximal pieces between
    occurrences of [sep]; never empty ([''.split('-') == ['']]). *)
Fixpoint split (sep : ascii) (s : string) : list string :=
  match s with
  | EmptyString => [EmptyString]
  | String c s' =>
      if Ascii.eqb c sep then EmptyString :: split sep s'
      else match split sep s' with
           | [] => [String c EmptyString]
           | piece :: pieces => String c piece :: pieces
           end
  end.

(** [s[n:]]: the slice that drops the first [n] characters (all of them when
    [s] is shorter). *)
Fixpoint drop (n : nat) (s : string) : string :=
  match n, s with
  | O, _ => s
  | S _, EmptyString => EmptyString
  | S n', String _ s' => drop n' s'
  end.

(** [s.startswith(p)] *)
Fixpoint startswith (p s : string) : bool :=
  match p, s with
  | EmptyString, _ => true
  | String _ _, EmptyString => false
  | String a p', String b s' => Ascii.eqb a b && startswith p' s'
  end.

(** [sub in s] *)
Fixpoint contains (sub s : string) : bool :=
  startswith sub s
  || match s with
     | EmptyString => false
     | String _ s' => contains sub s'
     end.

(** [c in s] for one character *)
Fixpoint mem (c : ascii) (s : string) : bool :=
  match s with
  | EmptyString => false
  | String d s' => Ascii.eqb d c || mem c s'
  end.

End PyStr.

(** ** Sample collections, as far as the naming functions read them *)

(** A dataset handle: what [samples._root_dataset] exposes to this module. *)
Record Dataset := mkDataset {
  name : string;
  _sample_collection_name : string
}.

(** A sample collection is a dataset or a view over one; [select_fields]
    produces the latter. *)
Inductive SampleCollection :=
| OfDataset (d : Dataset)
| OfView (root : Dataset) (fields : option (list string)).

Definition _root_dataset (samples : SampleCollection) : Dataset :=
  match samples with
  | OfDataset d => d
  | OfView root _ => root
  end.

Definition EXPERIMENT_PREFIX : string := "experiment".

(** ["%s.%s-%s" % (EXPERIMENT_PREFIX, root_coll_name, exp_key)] *)
Definition _make_exp_collection_name (samples : SampleCollection) (exp_key : string) : string :=
  let root_coll_name := _sample_collection_name (_root_dataset samples) in
  let exp_coll_name := EXPERIMENT_PREFIX ++ "." ++ root_coll_name ++ "-" ++ exp_key in
  exp_coll_name.

(** [exp_coll_name.split("-")[0][len(EXPERIMENT_PREFIX + "."):]] *)
Definition _get_parent_sample_collection_name (exp_coll_name : string) : string :=
  let removed_key := hd EmptyString (PyStr.split "-" exp_coll_name) in
  PyStr.drop (String.length (EXPERIMENT_PREFIX ++ ".")) removed_key.

(** ** Exceptions and the state-and-exception monad

    A Python call either returns or raises; either way the mutations it made
    before that point stay in the world. *)

Inductive exn :=
| ValueError (msg : string)
| NotImplementedError (msg : string)
| AttributeError (msg : string)
| AlreadyExists (what : string)
| NotFound (what : string).

Inductive result (A : Type) :=
| Ok (a : A)
| Raise (e : exn).
Arguments Ok {A} a.
Arguments Raise {A} e.

Definition M (W A : Type) : Type := W -> result A * W.

#[global] Instance M_ret {W} : MRet (M W) := fun A a w => (Ok a, w).

#[global] Instance M_bind {W} : MBind (M W) := fun A B f m w =>
  match m w with
  | (Ok a, w') => f a w'
  | (Raise e, w') => (Raise e, w')
  end.

Definition raise {W A} (e : exn) : M W A := fun w => (Raise e, w).
Definition gets {W A} (f : W -> A) : M W A := fun w => (Ok (f w), w).
Definition modify {W} (f : W -> W) : M W unit := fun w => (Ok tt, f w).
Definition lift {W A} (r : result A) : M W A := fun w => (r, w).

Definition is_ok {A} (r : result A) : bool :=
  match r with Ok _ => true | Raise _ => false end.

(** ** The experiment backend classes of [experiments.py] *)

(** [ExperimentBackendConfig] and its subclasses, as a closed variant. Only
    [ManualExperimentBackendConfig] is ever constructed by [_parse_config];
    its fields are [label_fields], [exp_key] and [exp_dir]. *)
Inductive ExperimentBackendConfig :=
| ManualExperimentBackendConfig
    (label_fields : option (list string)) (exp_key : string) (exp_dir : option string).

Definition label_fields (c : ExperimentBackendConfig) : option (list string) :=
  match c with ManualExperimentBackendConfig lf _ _ => lf end.

(** the [method] property *)
Definition method (c : ExperimentBackendConfig) : string :=
  match c with ManualExperimentBackendConfig _ _ _ => "manual" end.

(** [ExperimentBackend] instances; each holds its config. *)
Inductive ExperimentBackend :=
| ManualExperimentBackend (config : ExperimentBackendConfig).

Definition config_of (b : ExperimentBackend) : ExperimentBackendConfig :=
  match b with ManualExperimentBackend c => c end.

(** [config.build()]: the backend class that belongs to the config class. *)
Definition build (c : ExperimentBackendConfig) : ExperimentBackend :=
  ManualExperimentBackend c.

(** The class of a results object: the base [ExperimentResults] (whose
    [cleanup] and [_from_dict] raise) or [ManualExperimentResults]. *)
Inductive ResultsClass := ExperimentResultsBase | ManualExperimentResults.

(** An [ExperimentResults] object: the three attributes [__init__] sets. *)
Record ExperimentResults := mkResults {
  results_cls : ResultsClass;
  _samples : SampleCollection;
  _backend : ExperimentBackend;
  _exp_dataset_name : string
}.

(** the [config] and [backend] properties *)
Definition config (r : ExperimentResults) : ExperimentBackendConfig := config_of (_backend r).
Definition backend (r : ExperimentResults) : ExperimentBackend := _backend r.

(** The JSON dict a results object is stored as. [ManualExperimentResults._from_dict]
    passes it back to the constructor as keyword arguments, so it carries the
    class and [exp_dataset_name]. *)
Record ResultsDict := mkResultsDict {
  d_cls : ResultsClass;
  d_exp_dataset_name : string
}.

(** ** The database the run registry works on *)

(** One run record of a dataset: its config and, once saved, its results. *)
Record RunDoc := mkRunDoc {
  run_config : ExperimentBackendConfig;
  run_results : option ResultsDict
}.

(** The stored document of a dataset. *)
Record DatasetDoc := mkDatasetDoc {
  doc_sample_collection_name : string;
  persistent : bool;
  doc_fields : option (list string);
  experiments : gmap string RunDoc
}.

(** Calls that reach the database or the backend's environment, in the order
    they are made. *)
Inductive Event :=
| EnsureRequirements (backend_method : string)
| CloneDataset (new_name coll_name : string)
| SetPersistent (dataset : string) (flag : bool)
| RegisterRun (dataset key : string) (overwrite : bool)
| UpdateRunConfig (dataset key : string) (cfg : ExperimentBackendConfig)
| SaveRunResults (dataset key : string) (d : ResultsDict)
| DeleteDataset (dataset : string)
| ResultsCleanup (d : ResultsDict).

Record World := mkWorld {
  datasets : gmap string DatasetDoc;
  log : list Event
}.

Definition emit (e : Event) : M World unit :=
  modify (fun w => mkWorld (datasets w) (log w ++ [e])).

Definition set_datasets (f : gmap string DatasetDoc -> gmap string DatasetDoc) : M World unit :=
  modify (fun w => mkWorld (f (datasets w)) (log w)).

Definition set_experiments (f : gmap string RunDoc -> gmap string RunDoc) (d : DatasetDoc) : DatasetDoc :=
  mkDatasetDoc (doc_sample_collection_name d) (persistent d) (doc_fields d) (f (experiments d)).

Definition set_persistent (b : bool) (d : DatasetDoc) : DatasetDoc :=
  mkDatasetDoc (doc_sample_collection_name d) b (doc_fields d) (experiments d).

(** *** Collaborators of [experiments.py] that live in other modules

    [fiftyone.core.experiment] (the run registry), [fiftyone.core.dataset]
    and the sample-collection methods are not part of the sources at hand. *)

(** Modelled from the spec: [ExperimentMethod.ensure_requirements], one of
    the backend's capabilities (§4.4); a check that touches no stored state. *)
Definition ensure_requirements (b : ExperimentBackend) : M World unit :=
  emit (EnsureRequirements (method (config_of b))).

(** Modelled from the spec: [SampleCollection.select_fields], a field
    projection stage (§4.3): a new view over the same root dataset. *)
Definition select_fields (samples : SampleCollection) (fields : option (list string)) : SampleCollection :=
  OfView (_root_dataset samples) fields.

(** Modelled from the spec: the [name] property of a collection; a view is
    named after its dataset. *)
Definition collection_name (samples : SampleCollection) : string :=
  match samples with
  | OfDataset d => name d
  | OfView root _ => name root ++ "-view"
  end.

Definition view_fields (samples : SampleCollection) : option (list string) :=
  match samples with
  | OfDataset _ => None
  | OfView _ fields => fields
  end.

(** Modelled from the spec: [fod._clone_dataset_or_view]; creating a dataset
    under a name that is taken fails AlreadyExists (§4.1, §7), otherwise a
    new non-persistent dataset with its own collection and no runs appears. *)
Definition _clone_dataset_or_view (view : SampleCollection) (new_name coll_name : string)
  : M World Dataset :=
  emit (CloneDataset new_name coll_name);;
  ds ← gets datasets;
  match ds !! new_name with
  | Some _ => raise (AlreadyExists new_name)
  | None =>
      match ds !! name (_root_dataset view) with
      | None => raise (NotFound (name (_root_dataset view)))
      | Some _ =>
          set_datasets (insert new_name (mkDatasetDoc coll_name false (view_fields view) ∅));;
          mret (mkDataset new_name coll_name)
      end
  end.

(** Modelled from the spec: the setter of [Dataset.persistent]. *)
Definition set_dataset_persistent (d : Dataset) (flag : bool) : M World unit :=
  emit (SetPersistent (name d) flag);;
  ds ← gets datasets;
  match ds !! name d with
  | None => raise (NotFound (name d))
  | Some doc => set_datasets (insert (name d) (set_persistent flag doc))
  end.

(** Modelled from the spec: [fod.load_dataset]; NotFound for an unknown name. *)
Definition load_dataset (n : string) : M World Dataset :=
  ds ← gets datasets;
  match ds !! n with
  | None => raise (NotFound n)
  | Some doc => mret (mkDataset n (doc_sample_collection_name doc))
  end.

(** Modelled from the spec: [Dataset.delete] removes the dataset's storage
    collection and schema (§4.1). *)
Definition dataset_delete (d : Dataset) : M World unit :=
  emit (DeleteDataset (name d));;
  ds ← gets datasets;
  match ds !! name d with
  | None => raise (NotFound (name d))
  | Some _ => set_datasets (delete (name d))
  end.

(** The run records of the root dataset of [samples]. *)
Definition with_root_doc {A} (samples : SampleCollection) (k : DatasetDoc -> M World A) : M World A :=
  ds ← gets datasets;
  match ds !! name (_root_dataset samples) with
  | None => raise (NotFound (name (_root_dataset samples)))
  | Some doc => k doc
  end.

Definition put_root_doc (samples : SampleCollection) (doc : DatasetDoc) : M World unit :=
  set_datasets (insert (name (_root_dataset samples)) doc).

(** Modelled from the spec: [ExperimentMethod.register_run], the transition
    [unregistered -> registered/no-results] of §4.4; fails AlreadyExists if
    the key is registered on the dataset and [overwrite] is false. *)
Definition register_run (self : ExperimentBackend) (samples : SampleCollection)
    (key : string) (overwrite : bool) : M World unit :=
  emit (RegisterRun (name (_root_dataset samples)) key overwrite);;
  with_root_doc samples (fun doc =>
    match experiments doc !! key with
    | Some _ =>
        if overwrite
        then put_root_doc samples (set_experiments (insert key (mkRunDoc (config_of self) None)) doc)
        else raise (AlreadyExists key)
    | None =>
        put_root_doc samples (set_experiments (insert key (mkRunDoc (config_of self) None)) doc)
    end).

(** Modelled from the spec: serialisation of a results object, the inverse of
    what [_from_dict] feeds to the constructor. *)
Definition serialize (r : ExperimentResults) : ResultsDict :=
  mkResultsDict (results_cls r) (_exp_dataset_name r).

(** Modelled from the spec: [ExperimentMethod.save_run_results], the
    transition to [registered/has-results]; the run must be registered. *)
Definition save_run_results (self : ExperimentBackend) (samples : SampleCollection)
    (key : string) (results : ExperimentResults) : M World unit :=
  emit (SaveRunResults (name (_root_dataset samples)) key (serialize results));;
  with_root_doc samples (fun doc =>
    match experiments doc !! key with
    | None => raise (NotFound key)
    | Some run =>
        put_root_doc samples
          (set_experiments (insert key (mkRunDoc (run_config run) (Some (serialize results)))) doc)
    end).

(** Modelled from the spec: [ExperimentMethod.update_run_config], the
    [update] transition: replaces the stored config of a registered run. *)
Definition update_run_config (self : ExperimentBackend) (samples : SampleCollection)
    (key : string) (cfg : ExperimentBackendConfig) : M World unit :=
  emit (UpdateRunConfig (name (_root_dataset samples)) key cfg);;
  with_root_doc samples (fun doc =>
    match experiments doc !! key with
    | None => raise (NotFound key)
    | Some run =>
        put_root_doc samples (set_experiments (insert key (mkRunDoc cfg (run_results run))) doc)
    end).

(** *** [experiments.py] itself *)

(** [ExperimentResults.__init__(samples, config, exp_dataset_name, backend=None)]:
    without a backend one is built from the config and its requirements are
    checked; [config] is not stored. *)
Definition ExperimentResults__init__ (cls : ResultsClass) (samples : SampleCollection)
    (cfg : ExperimentBackendConfig) (exp_dataset_name : string)
    (backend : option ExperimentBackend) : M World ExperimentResults :=
  b ← match backend with
      | None =>
          let b := build cfg in
          ensure_requirements b;;
          mret b
      | Some b => mret b
      end;
  mret (mkResults cls samples b exp_dataset_name).

(** [_from_dict]: the base class raises, [ManualExperimentResults] calls
    [cls(samples, config, **d)]. *)
Definition _from_dict (d : ResultsDict) (samples : SampleCollection)
    (cfg : ExperimentBackendConfig) : M World ExperimentResults :=
  match d_cls d with
  | ExperimentResultsBase => raise (NotImplementedError "subclass must implement _from_dict()")
  | ManualExperimentResults =>
      ExperimentResults__init__ ManualExperimentResults samples cfg (d_exp_dataset_name d) None
  end.

(** Modelled from the spec: [ExperimentMethod.load_run_results] (also reached
    as [samples.load_experiment_results]): NotFound for an unregistered key,
    [None] for a run without results, otherwise the stored dict rebuilt
    through [_from_dict] with the run's stored config. *)
Definition load_run_results (samples : SampleCollection) (key : string)
  : M World (option ExperimentResults) :=
  with_root_doc samples (fun doc =>
    match experiments doc !! key with
    | None => raise (NotFound key)
    | Some run =>
        match run_results run with
        | None => mret None
        | Some d => r ← _from_dict d samples (run_config run); mret (Some r)
        end
    end).

(** A method call on the value [load_run_results] returned: on [None] Python
    raises AttributeError. *)
Definition not_none {A} (attr : string) (o : option A) : M World A :=
  match o with
  | None => raise (AttributeError attr)
  | Some a => mret a
  end.

(** [ExperimentResults.add_model_run(run_key, predictions)]: [pass]. The
    object after the call is returned. *)
Definition ExperimentResults_add_model_run {P : Type} (self : ExperimentResults)
    (run_key : string) (predictions : P) : ExperimentResults :=
  self.

(** [results.cleanup()]: the base class raises, [ManualExperimentResults] has [pass]. *)
Definition ExperimentResults_cleanup (self : ExperimentResults) : M World unit :=
  match results_cls self with
  | ExperimentResultsBase => raise (NotImplementedError "subclass must implement cleanup()")
  | ManualExperimentResults => mret tt
  end.

(** the [experiment_dataset] property: [fod.load_dataset(self._exp_dataset_name)] *)
Definition experiment_dataset (self : ExperimentResults) : M World Dataset :=
  load_dataset (_exp_dataset_name self).

(** [_parse_config(backend, label_fields, exp_key, **kwargs)]; of the keyword
    arguments [ManualExperimentBackendConfig.__init__] takes [exp_dir]. *)
Definition _parse_config (backend : option string) (label_fields : option (list string))
    (exp_key : string) (kwargs : gmap string string) : result ExperimentBackendConfig :=
  let backend := match backend with None => "manual" | Some b => b end in
  if String.eqb backend "manual"
  then Ok (ManualExperimentBackendConfig label_fields exp_key (kwargs !! "exp_dir"))
  else Raise (ValueError ("Unsupported experiment backend '" ++ backend ++ "'")).

(** [ExperimentBackend.create_experiment_dataset(samples, exp_key)] *)
Definition create_experiment_dataset (self : ExperimentBackend) (samples : SampleCollection)
    (exp_key : string) : M World Dataset :=
  let label_fields := label_fields (config_of self) in
  let view := select_fields samples label_fields in
  let exp_name := collection_name view ++ "-experiment-" ++ exp_key in
  let sample_collection_name := _make_exp_collection_name view exp_key in
  exp_dataset ← _clone_dataset_or_view view exp_name sample_collection_name;
  set_dataset_persistent exp_dataset true;;
  mret exp_dataset.

(** [ManualExperimentBackend.construct_experiment(samples, exp_key, exp_dataset)] *)
Definition construct_experiment (self : ExperimentBackend) (samples : SampleCollection)
    (exp_key : string) (exp_dataset : Dataset) : M World ExperimentResults :=
  let exp_dataset_name := name exp_dataset in
  ExperimentResults__init__ ManualExperimentResults samples (config_of self)
    exp_dataset_name (Some self).

(** [register_experiment(samples, exp_key, label_fields=None, backend=None, **kwargs)] *)
Definition register_experiment (samples : SampleCollection) (exp_key : string)
    (label_fields : option (list string)) (backend : option string)
    (kwargs : gmap string string) : M World ExperimentResults :=
  config ← lift (_parse_config backend label_fields exp_key kwargs);
  let exp_backend := build config in
  ensure_requirements exp_backend;;
  exp_dataset ← create_experiment_dataset exp_backend samples exp_key;
  results ← construct_experiment exp_backend samples exp_key exp_dataset;
  register_run exp_backend samples exp_key false;;
  save_run_results exp_backend samples exp_key results;;
  mret results.

(** [add_model_run(samples, exp_key, run_key, predictions)] *)
Definition add_model_run {P : Type} (samples : SampleCollection) (exp_key run_key : string)
    (predictions : P) : M World ExperimentResults :=
  loaded ← load_run_results samples exp_key;
  results ← not_none "add_model_run" loaded;
  let results := ExperimentResults_add_model_run results run_key predictions in
  let exp_backend := backend results in
  let config := config results in
  update_run_config exp_backend samples exp_key config;;
  save_run_results exp_backend samples exp_key results;;
  mret results.

(** The call [results.cleanup()] as [ExperimentBackend.cleanup] makes it: the
    call is logged with the results it is made on, then the method of the
    results' class runs. *)
Definition call_cleanup (results : ExperimentResults) : M World unit :=
  emit (ResultsCleanup (serialize results));;
  ExperimentResults_cleanup results.

(** [ExperimentBackend.cleanup(samples, exp_key)] *)
Definition cleanup (self : ExperimentBackend) (samples : SampleCollection)
    (exp_key : string) : M World unit :=
  loaded ← load_run_results samples exp_key;
  results ← not_none "experiment_dataset" loaded;
  exp_dataset ← experiment_dataset results;
  dataset_delete exp_dataset;;
  call_cleanup results.

(** The events a run of [m] from [w] appended to the log. *)
Definition new_events {A} (m : M World A) (w : World) : list Event :=
  List.skipn (length (log w)) (log (snd (m w))).

(** Modelled from the spec: [fod._get_dataset]: the dataset whose samples
    live in the collection of the given name; NotFound if there is none. *)
Definition _get_dataset (coll_name : string) : M World Dataset :=
  ds ← gets datasets;
  match List.filter
          (fun e => String.eqb (doc_sample_collection_name (snd e)) coll_name)
          (map_to_list ds) with
  | [] => raise (NotFound coll_name)
  | e :: _ => mret (mkDataset (fst e) coll_name)
  end.

(** [get_parent_dataset(exp_dataset)] *)
Definition get_parent_dataset (exp_dataset : Dataset) : M World Dataset :=
  let exp_coll_name := _sample_collection_name exp_dataset in
  let parent_coll_name := _get_parent_sample_collection_name exp_coll_name in
  _get_dataset parent_coll_name.

(** *** Names for the states the functions above reach *)

(** the world with more calls logged *)
Definition logged (w : World) (evs : list Event) : World :=
  mkWorld (datasets w) (log w ++ evs).

(** the name [create_experiment_dataset] gives the auxiliary dataset *)
Definition exp_dataset_name_of (samples : SampleCollection) (exp_key : string) : string :=
  collection_name (select_fields samples None) ++ "-experiment-" ++ exp_key.

(** the stored document of a freshly created auxiliary dataset *)
Definition aux_doc (samples : SampleCollection) (exp_key : string)
    (cfg : ExperimentBackendConfig) : DatasetDoc :=
  mkDatasetDoc (_make_exp_collection_name samples exp_key) true (label_fields cfg) ∅.

(** the results object [construct_experiment] builds *)
Definition manual_results (samples : SampleCollection) (cfg : ExperimentBackendConfig)
    (exp_key : string) : ExperimentResults :=
  mkResults ManualExperimentResults samples (build cfg) (exp_dataset_name_of samples exp_key).

(** the results object [load_run_results] rebuilds from a stored run *)
Definition loaded_results (samples : SampleCollection) (run : RunDoc) (d : ResultsDict)
  : ExperimentResults :=
  mkResults ManualExperimentResults samples (build (run_config run)) (d_exp_dataset_name d).

(** A small database: one dataset "d" stored in collection "samples.1". *)
Definition demo_samples : SampleCollection := OfDataset (mkDataset "d" "samples.1").

Definition demo_world : World :=
  mkWorld {[ "d" := mkDatasetDoc "samples.1" false None ∅ ]} [].

Definition demo_backend : ExperimentBackend :=
  ManualExperimentBackend (ManualExperimentBackendConfig None "k" None).

(** ** The dataset core: schema registry, identity map, views

    [fiftyone.core.dataset], [fiftyone.core.sample] and [fiftyone.core.view]
    are exercised by [tests/unittests.py] but are not among the sources; this
    module follows the contract of the specification (§3, §4.1-§4.3). *)

Module Core.

(** Modelled from the spec: the value kinds of a field descriptor (§3); the
    missing [fiftyone.core.fields] classes the tests name. *)
Inductive Kind :=
| BooleanField
| IntField
| StringField
| ListField
| ArrayField
| EmbeddedDocumentField (embedded_doc_type : string)
| ReferenceField.

Inductive Scalar :=
| SBool (b : bool)
| SInt (n : Z)
| SStr (s : string).

(** Modelled from the spec: field values, a tagged mapping entry (§9). *)
Inductive Value :=
| VNone
| VScalar (s : Scalar)
| VSeq (items : list Scalar)
| VDoc (doc_type : string) (attrs : list (string * Scalar)).

#[global] Instance Kind_eq_dec : EqDecision Kind.
Proof. solve_decision. Defined.
#[global] Instance Scalar_eq_dec : EqDecision Scalar.
Proof. solve_decision. Defined.
#[global] Instance Value_eq_dec : EqDecision Value.
Proof. solve_decision. Defined.

(** Modelled from the spec: the kind-appropriate default (§4.2): an empty
    ordered sequence for list and array kinds, absent otherwise. *)
Definition default_value (k : Kind) : Value :=
  match k with
  | ListField | ArrayField => VSeq []
  | _ => VNone
  end.

(** Modelled from the spec: kind inference from the shape of a value (§4.2
    [expand]); an absent value has no shape. *)
Definition infer_kind (v : Value) : option Kind :=
  match v with
  | VNone => None
  | VScalar (SBool _) => Some BooleanField
  | VScalar (SInt _) => Some IntField
  | VScalar (SStr _) => Some StringField
  | VSeq _ => Some ListField
  | VDoc ty _ => Some (EmbeddedDocumentField ty)
  end.

(** Modelled from the spec: type fixation (§4.2): a value fits a descriptor
    when it is absent or its shape is the descriptor's kind. *)
Definition conforms (v : Value) (k : Kind) : bool :=
  match v, k with
  | VNone, _ => true
  | VSeq _, (ListField | ArrayField) => true
  | _, _ => bool_decide (infer_kind v = Some k)
  end.

(** stored ids and object references are numbers *)
Abbreviation Id := nat (only parsing).
Abbreviation Ref := nat (only parsing).

(** Modelled from the spec: a Sample object (§3): optional id, optional
    owning dataset, field mapping. Objects live in a heap and are passed
    around by reference. *)
Record Sample := mkSample {
  id : option Id;
  dataset_name : option string;
  fields : gmap string Value
}.

(** Modelled from the spec: a Dataset (§3): schema registry, identity map
    (stored id to the one live object), and the documents of its collection
    in the store. *)
Record Dataset := mkDataset {
  schema : gmap string Kind;
  cache : gmap nat nat;
  docs : gmap nat (gmap string Value)
}.

Record World := mkWorld {
  heap : gmap nat Sample;
  next_ref : nat;
  datasets : gmap string Dataset;
  next_id : nat
}.

Definition empty_world : World := mkWorld ∅ 0 ∅ 0.

Definition set_heap (f : gmap nat Sample -> gmap nat Sample) : M World unit :=
  modify (fun w => mkWorld (f (heap w)) (next_ref w) (datasets w) (next_id w)).

Definition put_dataset (dname : string) (ds : Dataset) : M World unit :=
  modify (fun w => mkWorld (heap w) (next_ref w) (<[dname := ds]> (datasets w)) (next_id w)).

Definition get_dataset (dname : string) : M World Dataset :=
  dss ← gets datasets;
  match dss !! dname with
  | None => raise (NotFound dname)
  | Some ds => mret ds
  end.

(** a new object on the heap *)
Definition alloc (smp : Sample) : M World Ref := fun w =>
  (Ok (next_ref w),
   mkWorld (<[next_ref w := smp]> (heap w)) (S (next_ref w)) (datasets w) (next_id w)).

Definition deref (r : Ref) : M World Sample :=
  h ← gets heap;
  match h !! r with
  | None => raise (NotFound "sample object")
  | Some smp => mret smp
  end.

(** the store adapter generates a fresh id on insert (§6) *)
Definition fresh_id : M World Id := fun w =>
  (Ok (next_id w), mkWorld (heap w) (next_ref w) (datasets w) (S (next_id w))).

(** Modelled from the spec: default descriptors of a new dataset; reserved
    names cannot be removed or redefined (§3). *)
Definition default_schema : gmap string Kind :=
  {[ "filepath" := StringField; "tags" := ListField ]}.

Definition reserved (fname : string) : bool :=
  bool_decide (fname = "id") || bool_decide (is_Some (default_schema !! fname)).

(** Modelled from the spec: [Dataset(name)]: fails AlreadyExists for a name
    that is taken (§4.1, test_pername_singleton). *)
Definition create_dataset (dname : string) : M World unit :=
  dss ← gets datasets;
  match dss !! dname with
  | Some _ => raise (AlreadyExists dname)
  | None => put_dataset dname (mkDataset default_schema ∅ ∅)
  end.

(** Modelled from the spec: [Sample] constructor: a detached object. *)
Definition new_sample (fs : gmap string Value) : M World Ref :=
  alloc (mkSample None None fs).

(** the objects the identity map of a dataset holds *)
Definition cached_refs (ds : Dataset) : list Ref := (map_to_list (cache ds)).*2.

(** apply [f] to every listed object *)
Definition broadcast (f : Sample -> Sample) (refs : list Ref) (h : gmap nat Sample)
  : gmap nat Sample :=
  foldr (alter f) h refs.

Definition expose (new : gmap string Value) (smp : Sample) : Sample :=
  mkSample (id smp) (dataset_name smp) (new ∪ fields smp).

Definition purge (fname : string) (smp : Sample) : Sample :=
  mkSample (id smp) (dataset_name smp) (delete fname (fields smp)).

(** Schema growth by a batch of new descriptors: the registry gains them and
    every cached object exposes each with its default. *)
Definition add_fields (dname : string) (new : gmap string Kind) : M World unit :=
  ds ← get_dataset dname;
  put_dataset dname (mkDataset (new ∪ schema ds) (cache ds) (docs ds));;
  set_heap (broadcast (expose (default_value <$> new)) (cached_refs ds)).

(** Modelled from the spec: [add_field(name, kind)] (§4.2): AlreadyExists if
    the name is taken or reserved; on success every cached attached Sample
    exposes the name with the default of the kind. *)
Definition add_field (dname fname : string) (k : Kind) : M World unit :=
  ds ← get_dataset dname;
  if bool_decide (is_Some (schema ds !! fname)) || reserved fname
  then raise (AlreadyExists fname)
  else add_fields dname {[ fname := k ]}.

(** Modelled from the spec: [delete_field(name)] (§4.2): InvalidOperation on
    reserved names, NotFound on unknown ones; the value is purged from every
    cached object and every stored document. *)
Definition delete_field (dname fname : string) : M World unit :=
  ds ← get_dataset dname;
  if reserved fname then raise (ValueError "cannot delete a default field")
  else match schema ds !! fname with
       | None => raise (NotFound fname)
       | Some _ =>
           put_dataset dname
             (mkDataset (delete fname (schema ds)) (cache ds) (delete fname <$> docs ds));;
           set_heap (broadcast (purge fname) (cached_refs ds))
       end.

(** Modelled from the spec: the descriptors [expand] would add for a field
    mapping (§4.2): every unknown field gets the kind inferred from its
    value; a known field must fit its descriptor. Nothing is changed yet, so
    a rejected document leaves no partial insert. *)
Definition new_descriptor (sch : gmap string Kind) (expand_schema : bool)
    (entry : string * Value) : result (option (string * Kind)) :=
  let '(fname, v) := entry in
  match sch !! fname with
  | Some k =>
      if conforms v k then Ok None else Raise (ValueError ("validation: " ++ fname))
  | None =>
      if expand_schema
      then match infer_kind v with
           | Some k => Ok (Some (fname, k))
           | None => Ok None
           end
      else Raise (ValueError ("schema mismatch: " ++ fname))
  end.

Fixpoint new_descriptors (sch : gmap string Kind) (expand_schema : bool)
    (entries : list (string * Value)) : result (list (string * Kind)) :=
  match entries with
  | [] => Ok []
  | entry :: rest =>
      match new_descriptor sch expand_schema entry with
      | Raise e => Raise e
      | Ok o =>
          match new_descriptors sch expand_schema rest with
          | Raise e => Raise e
          | Ok l => Ok (match o with Some d => d :: l | None => l end)
          end
      end
  end.

(** Attach the object at [r] to the dataset in place: schema expansion, a
    fresh id, the back-reference, and the object becomes the cached one. *)
Definition attach (dname : string) (r : Ref) (expand_schema : bool) : M World Id :=
  smp ← deref r;
  ds ← get_dataset dname;
  new ← lift (new_descriptors (schema ds) expand_schema (map_to_list (fields smp)));
  add_fields dname (list_to_map new);;
  ds ← get_dataset dname;
  i ← fresh_id;
  let fs := fields smp ∪ (default_value <$> schema ds) in
  set_heap (<[r := mkSample (Some i) (Some dname) fs]>);;
  put_dataset dname (mkDataset (schema ds) (<[i := r]> (cache ds)) (<[i := fs]> (docs ds)));;
  mret i.

(** Modelled from the spec: [add(sample)] (§4.1): an attached sample is
    value-copied into a new object which is then inserted; a detached one is
    attached in place. *)
Definition add (dname : string) (r : Ref) (expand_schema : bool) : M World Id :=
  smp ← deref r;
  ds ← get_dataset dname;
  _ ← lift (new_descriptors (schema ds) expand_schema (map_to_list (fields smp)));
  match dataset_name smp with
  | Some _ =>
      copy ← alloc (mkSample None None (fields smp));
      attach dname copy expand_schema
  | None => attach dname r expand_schema
  end.

(** Modelled from the spec: [get(id)] (§4.1): a cache hit returns the cached
    reference; a miss hydrates from the store, inserts into the identity map
    and returns the new object; NotFound if the id is not stored. *)
Definition get (dname : string) (i : Id) : M World Ref :=
  ds ← get_dataset dname;
  match cache ds !! i with
  | Some r => mret r
  | None =>
      match docs ds !! i with
      | None => raise (NotFound "sample id")
      | Some doc =>
          r ← alloc (mkSample (Some i) (Some dname) (doc ∪ (default_value <$> schema ds)));
          put_dataset dname (mkDataset (schema ds) (<[i := r]> (cache ds)) (docs ds));;
          mret r
      end
  end.

(** Modelled from the spec: [remove(id)] (§4.1): the cached object is
    detached, the stored document deleted; unknown ids are no error. *)
Definition remove (dname : string) (i : Id) : M World unit :=
  ds ← get_dataset dname;
  match cache ds !! i with
  | Some r => set_heap (alter (fun smp => mkSample None None (fields smp)) r)
  | None => mret tt
  end;;
  put_dataset dname (mkDataset (schema ds) (delete i (cache ds)) (delete i (docs ds))).

(** Modelled from the spec: a View (§3, §4.3): a source dataset and an
    ordered list of stages, run against the stored documents. *)
Inductive Stage :=
| Match (fname : string) (v : Value)
| Limit (n : nat)
| Skip (n : nat).

Record View := mkView {
  source : string;
  stages : list Stage
}.

Definition apply_stage (l : list (nat * gmap string Value)) (st : Stage)
  : list (nat * gmap string Value) :=
  match st with
  | Match fname v => List.filter (fun e => bool_decide (snd e !! fname = Some v)) l
  | Limit n => take n l
  | Skip n => drop n l
  end.

(** the ids the pipeline of a view yields, in order *)
Definition view_ids (v : View) (ds : Dataset) : list Id :=
  (foldl apply_stage (map_to_list (docs ds)) (stages v)).*1.

Definition view_match (v : View) (fname : string) (x : Value) : View :=
  mkView (source v) (stages v ++ [Match fname x]).

Fixpoint mapM {W A B} (f : A -> M W B) (l : list A) : M W (list B) :=
  match l with
  | [] => mret []
  | a :: l' => b ← f a; bs ← mapM f l'; mret (b :: bs)
  end.

(** Modelled from the spec: iterating a view (§4.3): each element is resolved
    through the identity map of the source dataset. *)
Definition iter_view (v : View) : M World (list Ref) :=
  ds ← get_dataset (source v);
  mapM (get (source v)) (view_ids v ds).

(** Modelled from the spec: [first()]: the first element, NotFound if the
    pipeline yields nothing. *)
Definition first (v : View) : M World Ref :=
  ds ← get_dataset (source v);
  match view_ids v ds with
  | [] => raise (NotFound "first")
  | i :: _ => get (source v) i
  end.

(** reading a field of an object: NotFound when it is not exposed *)
Definition get_field (r : Ref) (fname : string) : M World Value :=
  smp ← deref r;
  match fields smp !! fname with
  | None => raise (NotFound fname)
  | Some v => mret v
  end.

(** *** Well-formed worlds: the invariants (a) and (b) of §3, as a check *)

(** an attached object is the one its dataset's identity map holds for its id *)
Definition sample_ok (w : World) (entry : nat * Sample) : bool :=
  let '(r, smp) := entry in
  Nat.ltb r (next_ref w)
  && match id smp, dataset_name smp with
     | Some i, Some dname =>
         Nat.ltb i (next_id w)
         && match datasets w !! dname with
            | Some ds => bool_decide (cache ds !! i = Some r)
            | None => false
            end
     | None, None => true
     | _, _ => false
     end.

(** an identity-map entry points at a live object attached under that id *)
Definition cache_entry_ok (w : World) (dname : string) (entry : nat * nat) : bool :=
  let '(i, r) := entry in
  match heap w !! r with
  | Some smp => bool_decide (id smp = Some i) && bool_decide (dataset_name smp = Some dname)
  | None => false
  end.

(** stored ids were handed out by the store *)
Definition doc_entry_ok (w : World) (entry : nat * gmap string Value) : bool :=
  Nat.ltb (fst entry) (next_id w).

Definition dataset_ok (w : World) (entry : string * Dataset) : bool :=
  let '(dname, ds) := entry in
  forallb (cache_entry_ok w dname) (map_to_list (cache ds))
  && forallb (doc_entry_ok w) (map_to_list (docs ds)).

Definition wf (w : World) : bool :=
  forallb (sample_ok w) (map_to_list (heap w))
  && forallb (dataset_ok w) (map_to_list (datasets w)).

(** the identity map of [dname] holds the object [r] for the id [i] *)
Definition cached (w : World) (dname : string) (i : Id) (r : Ref) : Prop :=
  exists ds, datasets w !! dname = Some ds /\ cache ds !! i = Some r.

(** the same invariants as a proposition *)
Definition WF (w : World) : Prop :=
  (forall r smp,
      heap w !! r = Some smp ->
      r < next_ref w
      /\ match id smp, dataset_name smp with
         | Some i, Some dname => i < next_id w /\ cached w dname i r
         | None, None => True
         | _, _ => False
         end)
  /\ (forall dname i r,
        cached w dname i r ->
        exists smp, heap w !! r = Some smp /\ id smp = Some i /\ dataset_name smp = Some dname)
  /\ (forall dname ds i doc,
        datasets w !! dname = Some ds -> docs ds !! i = Some doc -> i < next_id w).

(** the world after attaching the object [r], whose fields were [fs0], to
    [dname] under the new descriptors [new] *)
Definition attached (w : World) (dname : string) (ds : Dataset) (r : Ref)
    (fs0 : gmap string Value) (new : list (string * Kind)) : World :=
  let sch := list_to_map new ∪ schema ds in
  let fs := fs0 ∪ (default_value <$> sch) in
  mkWorld
    (<[r := mkSample (Some (next_id w)) (Some dname) fs]>
       (broadcast (expose (default_value <$> list_to_map new)) (cached_refs ds) (heap w)))
    (next_ref w)
    (<[dname := mkDataset sch (<[next_id w := r]> (cache ds)) (<[next_id w := fs]> (docs ds))]>
       (datasets w))
    (S (next_id w)).

(** A small process state: datasets "d1" and "d2", one sample added to "d1". *)
Definition demo_fields : gmap string Value :=
  {[ "filepath" := VScalar (SStr "test.png") ]}.

Definition demo_setup : M World (Ref * Id) :=
  create_dataset "d1";;
  create_dataset "d2";;
  s ← new_sample demo_fields;
  i ← add "d1" s true;
  mret (s, i).

Definition demo_world : World := snd (demo_setup empty_world).

End Core.

(** * Properties *)

Ltac run_monad :=
  unfold mbind, M_bind, mret, M_ret, raise, gets, modify, lift in *; simpl in *.

Ltac unfold_registry :=
  unfold register_experiment, add_model_run, cleanup, create_experiment_dataset,
    construct_experiment, load_run_results, _from_dict, ExperimentResults__init__,
    not_none, experiment_dataset, call_cleanup, ExperimentResults_cleanup,
    ensure_requirements, _clone_dataset_or_view, set_dataset_persistent, load_dataset,
    dataset_delete, register_run, save_run_results, update_run_config,
    with_root_doc, put_root_doc, emit, set_datasets in *.

(** ** The naming convention of auxiliary collections *)

Lemma split_nonempty sep s : PyStr.split sep s <> [].
Proof.
  destruct s as [|c s]; simpl; [discriminate|].
  destruct (Ascii.eqb c sep); [discriminate|].
  destruct (PyStr.split sep s); discriminate.
Qed.

Lemma drop_app (p s : string) : PyStr.drop (String.length p) (p ++ s) = s.
Proof. induction p as [|c p IH]; simpl; [by destruct s | exact IH]. Qed.

Lemma str_app_assoc (a b c : string) : (a ++ b) ++ c = a ++ (b ++ c).
Proof. induction a as [|x a IH]; [reflexivity|]. change (String x ((a ++ b) ++ c) = String x (a ++ b ++ c)). by f_equal. Qed.

(** The first piece of [a ++ sep ++ b] is [a] when [sep] does not occur in [a]. *)
Lemma split_head_app sep (a b : string) :
  PyStr.mem sep a = false ->
  hd EmptyString (PyStr.split sep (a ++ String sep b)) = a.
Proof.
  induction a as [|c a IH]; simpl; intros Hm.
  - by rewrite Ascii.eqb_refl.
  - apply orb_false_iff in Hm as [Hc Ha]. rewrite Hc.
    specialize (IH Ha).
    destruct (PyStr.split sep (a ++ String sep b)) as [|h t] eqn:E.
    + by destruct (split_nonempty _ _ E).
    + simpl in *. by subst.
Qed.

(** Otherwise the first piece stops at the first occurrence of [sep]. *)
Lemma split_head_length sep (s : string) :
  PyStr.mem sep s = true ->
  String.length (hd EmptyString (PyStr.split sep s)) < String.length s.
Proof.
  induction s as [|c s IH]; simpl; [discriminate|].
  destruct (Ascii.eqb c sep) eqn:Hc; simpl; [lia|].
  intros Hm. specialize (IH Hm).
  destruct (PyStr.split sep s) as [|h t]; simpl in *; lia.
Qed.

Lemma contains_char_mem c s : PyStr.contains (String c EmptyString) s = PyStr.mem c s.
Proof.
  induction s as [|d s IH]; simpl; [done|]. rewrite IH. f_equal.
  rewrite Ascii.eqb_sym. destruct (Ascii.eqb d c); [|done]. by destruct s.
Qed.

(** C1 (as amended): for every parent root collection name P that does not
    contain "-" and every run key K, [_make_exp_collection_name] produces
    exactly "experiment." + P + "-" + K, and
    [_get_parent_sample_collection_name] applied to that string returns P.
    The condition is on the parent name; the run key is unconstrained. *)
Theorem parent_collection_name_roundtrip (samples : SampleCollection) (K : string) :
  PyStr.contains "-" (_sample_collection_name (_root_dataset samples)) = false ->
  _make_exp_collection_name samples K
    = "experiment." ++ _sample_collection_name (_root_dataset samples) ++ "-" ++ K
  /\ _get_parent_sample_collection_name (_make_exp_collection_name samples K)
    = _sample_collection_name (_root_dataset samples).
Proof.
  intros HP. rewrite contains_char_mem in HP. split; [reflexivity|].
  unfold _get_parent_sample_collection_name, _make_exp_collection_name.
  set (P := _sample_collection_name (_root_dataset samples)) in *.
  assert (Hm : PyStr.mem "-" ((EXPERIMENT_PREFIX ++ ".") ++ P) = false).
  { simpl. exact HP. }
  pose proof (split_head_app "-" ((EXPERIMENT_PREFIX ++ ".") ++ P) K Hm) as Hh.
  replace (EXPERIMENT_PREFIX ++ "." ++ P ++ "-" ++ K)
    with (((EXPERIMENT_PREFIX ++ ".") ++ P) ++ String "-" K) by reflexivity.
  rewrite Hh. apply drop_app.
Qed.

Lemma parent_collection_name_roundtrip_witness :
  _get_parent_sample_collection_name
    (_make_exp_collection_name (OfDataset (mkDataset "d" "samples.1")) "k-1")
  = "samples.1".
Proof.
  apply (parent_collection_name_roundtrip (OfDataset (mkDataset "d" "samples.1")) "k-1").
  reflexivity.
Defined.

(** C1 (as stated) fails: the run key "k" contains neither "-", nor ".", nor
    the prefix "experiment.", yet for the parent collection name "a-b" the
    parsed parent name is "a". *)
Lemma parent_collection_name_roundtrip_counterexample :
  ~ (forall (samples : SampleCollection) (K : string),
       PyStr.contains "-" K = false ->
       PyStr.contains "." K = false ->
       PyStr.contains "experiment." K = false ->
       _make_exp_collection_name samples K
         = "experiment." ++ _sample_collection_name (_root_dataset samples) ++ "-" ++ K
       /\ _get_parent_sample_collection_name (_make_exp_collection_name samples K)
         = _sample_collection_name (_root_dataset samples)).
Proof.
  intros H.
  destruct (H (OfDataset (mkDataset "d" "a-b")) "k") as [_ Hp]; try reflexivity.
  vm_compute in Hp. discriminate Hp.
Qed.

(** Whenever the parent collection name contains "-", parsing loses part of it. *)
Lemma parent_collection_name_truncated (samples : SampleCollection) (K : string) :
  PyStr.mem "-" (_sample_collection_name (_root_dataset samples)) = true ->
  _get_parent_sample_collection_name (_make_exp_collection_name samples K)
    <> _sample_collection_name (_root_dataset samples).
Proof.
  intros HP Heq.
  unfold _get_parent_sample_collection_name, _make_exp_collection_name in Heq.
  set (P := _sample_collection_name (_root_dataset samples)) in *.
  assert (Hlen : forall n s, String.length (PyStr.drop n s) = String.length s - n).
  { induction n as [|n IH]; intros [|c s]; simpl; auto. }
  apply (f_equal String.length) in Heq. rewrite Hlen in Heq.
  assert (Hm : PyStr.mem "-" (EXPERIMENT_PREFIX ++ "." ++ P ++ "-" ++ K) = true).
  { simpl. clear -HP. induction P as [|c P IH]; simpl in *; [discriminate|].
    destruct (Ascii.eqb c "-"); simpl; auto. }
  pose proof (split_head_length "-" _ Hm) as Hlt.
  assert (Hfull : forall a b : string, String.length (a ++ b) = String.length a + String.length b).
  { induction a; simpl; auto. }
  revert Hlt Heq.
  (* the head piece is a proper prefix of "experiment." ++ P ++ ... cut
     before the "-" inside P *)
  assert (Hhd : exists P1 P2, P = P1 ++ String "-" P2 /\ PyStr.mem "-" P1 = false) .
  { clear -HP. induction P as [|c P IH]; simpl in *; [discriminate|].
    destruct (Ascii.eqb_spec c "-") as [->|Hne].
    - exists EmptyString, P. split; reflexivity.
    - simpl in HP. destruct (IH HP) as (P1 & P2 & -> & Hm).
      exists (String c P1), P2. split; [reflexivity|]. simpl.
      destruct (Ascii.eqb_spec c "-"); [contradiction|]. exact Hm. }
  destruct Hhd as (P1 & P2 & HP12 & HmP1).
  assert (Hhead : hd EmptyString (PyStr.split "-" (EXPERIMENT_PREFIX ++ "." ++ P ++ "-" ++ K))
                  = (EXPERIMENT_PREFIX ++ ".") ++ P1).
  { rewrite HP12.
    replace (EXPERIMENT_PREFIX ++ "." ++ (P1 ++ String "-" P2) ++ "-" ++ K)
      with (((EXPERIMENT_PREFIX ++ ".") ++ P1) ++ String "-" (P2 ++ "-" ++ K)).
    - apply split_head_app. simpl. exact HmP1.
    - rewrite !str_app_assoc. reflexivity. }
  rewrite Hhead. intros _. rewrite HP12, !Hfull.
  change (String.length (String "-" P2)) with (S (String.length P2)). lia.
Qed.

(** *** More on the naming functions *)

Lemma str_length_app (a b : string) :
  String.length (a ++ b) = String.length a + String.length b.
Proof. induction a as [|c a IH]; simpl; [done|]. by rewrite IH. Qed.

Lemma str_app_inj_l (a x y : string) : a ++ x = a ++ y -> x = y.
Proof. induction a as [|c a IH]; simpl; [done|]. intros [= H]. auto. Qed.

Lemma split_head_no_sep sep s : PyStr.mem sep (hd EmptyString (PyStr.split sep s)) = false.
Proof.
  induction s as [|c s IH]; simpl; [done|].
  destruct (Ascii.eqb c sep) eqn:Hc; simpl; [done|].
  destruct (PyStr.split sep s) as [|h t]; simpl in *; rewrite Hc; simpl; [done|exact IH].
Qed.

Lemma split_head_length_le sep s :
  String.length (hd EmptyString (PyStr.split sep s)) <= String.length s.
Proof.
  induction s as [|c s IH]; simpl; [done|].
  destruct (Ascii.eqb c sep); simpl; [lia|].
  destruct (PyStr.split sep s) as [|h t]; simpl in *; lia.
Qed.

Lemma split_head_whole sep s :
  PyStr.mem sep s = false -> hd EmptyString (PyStr.split sep s) = s.
Proof.
  induction s as [|c s IH]; simpl; [done|].
  intros Hm. apply orb_false_iff in Hm as [Hc Hs]. rewrite Hc.
  specialize (IH Hs). destruct (PyStr.split sep s) as [|h t] eqn:E.
  - by destruct (split_nonempty _ _ E).
  - simpl in *. by subst.
Qed.

Lemma drop_no_mem c n : forall s, PyStr.mem c s = false -> PyStr.mem c (PyStr.drop n s) = false.
Proof.
  induction n as [|n IH]; intros [|d s]; simpl; try done.
  intros Hm. apply orb_false_iff in Hm as [_ Hs]. auto.
Qed.

Lemma drop_short n : forall s, String.length s <= n -> PyStr.drop n s = EmptyString.
Proof.
  induction n as [|n IH]; intros [|d s]; simpl; try done; [lia|].
  intros Hl. apply IH. lia.
Qed.

(** the parent name of a dash-free parent comes back (the mem form) *)
Lemma parse_make (samples : SampleCollection) (K : string) :
  PyStr.mem "-" (_sample_collection_name (_root_dataset samples)) = false ->
  _get_parent_sample_collection_name (_make_exp_collection_name samples K)
  = _sample_collection_name (_root_dataset samples).
Proof.
  intros HP. unfold _get_parent_sample_collection_name, _make_exp_collection_name.
  set (P := _sample_collection_name (_root_dataset samples)) in *.
  replace (EXPERIMENT_PREFIX ++ "." ++ P ++ "-" ++ K)
    with (((EXPERIMENT_PREFIX ++ ".") ++ P) ++ String "-" K) by reflexivity.
  rewrite split_head_app; [apply drop_app|]. exact HP.
Qed.

(** Whatever string it is given, [_get_parent_sample_collection_name]
    returns a name without "-". *)
Theorem parsed_parent_name_has_no_dash (exp_coll_name : string) :
  PyStr.contains "-" (_get_parent_sample_collection_name exp_coll_name) = false.
Proof.
  rewrite contains_char_mem. unfold _get_parent_sample_collection_name.
  apply drop_no_mem, split_head_no_sep.
Qed.

(** The prefix is not checked: any eleven characters without "-" in front of
    a dash-free parent name are stripped like "experiment.", with or without
    a "-key" part behind; a name of at most eleven characters parses to the
    empty string. No input makes it raise. *)
Theorem parent_name_parser_checks_no_prefix (prefix P K : string) :
  String.length prefix = 11 ->
  PyStr.contains "-" prefix = false ->
  PyStr.contains "-" P = false ->
  _get_parent_sample_collection_name (prefix ++ P ++ "-" ++ K) = P
  /\ _get_parent_sample_collection_name (prefix ++ P) = P
  /\ _get_parent_sample_collection_name prefix = EmptyString.
Proof.
  rewrite !contains_char_mem. intros Hlen Hp HP.
  assert (Hm : PyStr.mem "-" (prefix ++ P) = false).
  { clear Hlen. induction prefix as [|c p IH]; simpl in *; [done|].
    apply orb_false_iff in Hp as [-> Hp]. simpl. auto. }
  unfold _get_parent_sample_collection_name.
  change (String.length (EXPERIMENT_PREFIX ++ ".")) with 11. rewrite <- Hlen.
  split; [|split].
  - replace (prefix ++ P ++ "-" ++ K) with ((prefix ++ P) ++ String "-" K)
      by (by rewrite str_app_assoc).
    rewrite split_head_app by done. apply drop_app.
  - rewrite split_head_whole by done. apply drop_app.
  - rewrite split_head_whole by done. by apply drop_short.
Qed.

Lemma parent_name_parser_checks_no_prefix_witness :
  _get_parent_sample_collection_name "0123456789.samples.1-k" = "samples.1".
Proof.
  apply (parent_name_parser_checks_no_prefix "0123456789." "samples.1" "k"); reflexivity.
Defined.

(** A name of at most eleven characters parses to the empty string: the
    slice never raises. *)
Theorem short_names_parse_to_empty (exp_coll_name : string) :
  String.length exp_coll_name <= 11 ->
  _get_parent_sample_collection_name exp_coll_name = EmptyString.
Proof.
  intros Hl. unfold _get_parent_sample_collection_name. apply drop_short.
  pose proof (split_head_length_le "-" exp_coll_name).
  change (String.length (EXPERIMENT_PREFIX ++ ".")) with 11. lia.
Qed.

Lemma short_names_parse_to_empty_witness :
  _get_parent_sample_collection_name "experiment" = EmptyString.
Proof. apply (short_names_parse_to_empty "experiment"). simpl. lia. Defined.

(** Distinct (parent collection, key) pairs get distinct auxiliary collection
    names, as long as the parent names contain no "-". *)
Theorem exp_collection_name_injective (s1 s2 : SampleCollection) (K1 K2 : string) :
  PyStr.contains "-" (_sample_collection_name (_root_dataset s1)) = false ->
  PyStr.contains "-" (_sample_collection_name (_root_dataset s2)) = false ->
  _make_exp_collection_name s1 K1 = _make_exp_collection_name s2 K2 ->
  _sample_collection_name (_root_dataset s1) = _sample_collection_name (_root_dataset s2)
  /\ K1 = K2.
Proof.
  rewrite !contains_char_mem. intros H1 H2 Heq.
  assert (HP : _sample_collection_name (_root_dataset s1)
               = _sample_collection_name (_root_dataset s2)).
  { rewrite <- (parse_make s1 K1 H1), <- (parse_make s2 K2 H2). by rewrite Heq. }
  split; [done|]. unfold _make_exp_collection_name in Heq. rewrite HP in Heq.
  apply str_app_inj_l in Heq. apply (str_app_inj_l ".") in Heq.
  apply str_app_inj_l in Heq. by apply (str_app_inj_l "-") in Heq.
Qed.

Lemma exp_collection_name_injective_witness :
  "samples.1" = "samples.1" /\ "k-1" = "k-1".
Proof.
  apply (exp_collection_name_injective
           (OfDataset (mkDataset "d" "samples.1")) (OfView (mkDataset "e" "samples.1") None)
           "k-1" "k-1"); reflexivity.
Defined.

(** with "-" in a parent name two different pairs collide *)
Example exp_collection_name_collision :
  _make_exp_collection_name (OfDataset (mkDataset "d" "a-b")) "c"
  = _make_exp_collection_name (OfDataset (mkDataset "e" "a")) "b-c".
Proof. reflexivity. Qed.

Lemma parent_collection_name_truncated_witness :
  _get_parent_sample_collection_name
    (_make_exp_collection_name (OfDataset (mkDataset "d" "samples-1")) "k")
  <> "samples-1".
Proof.
  apply (parent_collection_name_truncated (OfDataset (mkDataset "d" "samples-1")) "k").
  reflexivity.
Defined.

(** With a parent collection name free of "-", [get_parent_dataset] looks up
    exactly the parent's collection. *)
Lemma get_parent_dataset_looks_up_parent (samples : SampleCollection) (K aux_name : string) w :
  PyStr.contains "-" (_sample_collection_name (_root_dataset samples)) = false ->
  get_parent_dataset (mkDataset aux_name (_make_exp_collection_name samples K)) w
  = _get_dataset (_sample_collection_name (_root_dataset samples)) w.
Proof.
  intros HP. rewrite contains_char_mem in HP. unfold get_parent_dataset. simpl.
  by rewrite parse_make.
Qed.

Example get_parent_dataset_demo :
  let w := snd (register_experiment demo_samples "k" None None ∅ demo_world) in
  fst (get_parent_dataset (mkDataset "d-view-experiment-k" "experiment.samples.1-k") w)
  = Ok (mkDataset "d" "samples.1").
Proof. vm_compute. reflexivity. Qed.

(** a parent stored in collection "samples-1" is not found again *)
Example get_parent_dataset_dash :
  let samples := OfDataset (mkDataset "d" "samples-1") in
  let w0 := mkWorld {[ "d" := mkDatasetDoc "samples-1" false None ∅ ]} [] in
  let w := snd (register_experiment samples "k" None None ∅ w0) in
  fst (load_dataset "d-view-experiment-k" w)
    = Ok (mkDataset "d-view-experiment-k" "experiment.samples-1-k")
  /\ fst (get_parent_dataset (mkDataset "d-view-experiment-k" "experiment.samples-1-k") w)
     = Raise (NotFound "samples").
Proof. vm_compute. split; reflexivity. Qed.

(** ** The run registry of experiments

    Each top-level function is first evaluated once and for all: what it
    returns and what world it leaves, by cases on the database. *)

Lemma register_experiment_eval samples exp_key lf b kw w :
  register_experiment samples exp_key lf b kw w =
  match _parse_config b lf exp_key kw with
  | Raise e => (Raise e, w)
  | Ok cfg =>
      let root := name (_root_dataset samples) in
      let aux := exp_dataset_name_of samples exp_key in
      let coll := _make_exp_collection_name samples exp_key in
      match datasets w !! aux with
      | Some _ =>
          (Raise (AlreadyExists aux),
           logged w [EnsureRequirements "manual"; CloneDataset aux coll])
      | None =>
          match datasets w !! root with
          | None =>
              (Raise (NotFound root),
               logged w [EnsureRequirements "manual"; CloneDataset aux coll])
          | Some doc =>
              match experiments doc !! exp_key with
              | Some _ =>
                  (Raise (AlreadyExists exp_key),
                   mkWorld (<[aux := aux_doc samples exp_key cfg]> (datasets w))
                     (log w ++ [EnsureRequirements "manual"; CloneDataset aux coll;
                                SetPersistent aux true; RegisterRun root exp_key false]))
              | None =>
                  let results := manual_results samples cfg exp_key in
                  (Ok results,
                   mkWorld
                     (<[root := set_experiments
                                  (insert exp_key (mkRunDoc cfg (Some (serialize results)))) doc]>
                        (<[aux := aux_doc samples exp_key cfg]> (datasets w)))
                     (log w ++ [EnsureRequirements "manual"; CloneDataset aux coll;
                                SetPersistent aux true; RegisterRun root exp_key false;
                                SaveRunResults root exp_key (serialize results)]))
              end
          end
      end
  end.
Proof.
  unfold_registry. run_monad.
  destruct (_parse_config b lf exp_key kw) as [cfg|e0]; simpl; [|reflexivity].
  unfold exp_dataset_name_of, logged; simpl.
  destruct cfg as [lf' k' dir']; simpl.
  set (aux := (name (_root_dataset samples) ++ "-view") ++ "-experiment-" ++ exp_key).
  destruct (datasets w !! aux) eqn:Haux; simpl.
  { by rewrite <- !app_assoc. }
  destruct (datasets w !! name (_root_dataset samples)) as [doc|] eqn:Hroot; simpl.
  2:{ by rewrite <- !app_assoc. }
  rewrite lookup_insert_eq. simpl.
  rewrite insert_insert_eq.
  assert (Hne : aux <> name (_root_dataset samples)) by congruence.
  rewrite lookup_insert_ne by done. rewrite Hroot.
  destruct (experiments doc !! exp_key) eqn:Hkey; simpl.
  { rewrite <- !app_assoc. reflexivity. }
  rewrite lookup_insert_eq. unfold set_experiments; simpl. rewrite lookup_insert_eq.
  simpl. rewrite !insert_insert_eq.
  rewrite <- !app_assoc. reflexivity.
Qed.

Lemma method_manual cfg : method cfg = "manual".
Proof. by destruct cfg. Qed.

Lemma load_run_results_eval samples key w :
  load_run_results samples key w =
  match datasets w !! name (_root_dataset samples) with
  | None => (Raise (NotFound (name (_root_dataset samples))), w)
  | Some doc =>
      match experiments doc !! key with
      | None => (Raise (NotFound key), w)
      | Some run =>
          match run_results run with
          | None => (Ok None, w)
          | Some d =>
              match d_cls d with
              | ExperimentResultsBase =>
                  (Raise (NotImplementedError "subclass must implement _from_dict()"), w)
              | ManualExperimentResults =>
                  (Ok (Some (loaded_results samples run d)),
                   logged w [EnsureRequirements "manual"])
              end
          end
      end
  end.
Proof.
  unfold_registry. run_monad.
  destruct (datasets w !! _) as [doc|]; [|done].
  destruct (experiments doc !! key) as [run|]; [|done].
  destruct (run_results run) as [d|]; [|done].
  destruct (d_cls d); simpl; [done|].
  by rewrite method_manual.
Qed.

Lemma add_model_run_eval {P} samples key run_key (preds : P) w :
  add_model_run samples key run_key preds w =
  let root := name (_root_dataset samples) in
  match load_run_results samples key w with
  | (Raise e, w') => (Raise e, w')
  | (Ok None, w') => (Raise (AttributeError "add_model_run"), w')
  | (Ok (Some results), w') =>
      match datasets w' !! root with
      | None => (Raise (NotFound root), logged w' [UpdateRunConfig root key (config results)])
      | Some doc =>
          match experiments doc !! key with
          | None => (Raise (NotFound key), logged w' [UpdateRunConfig root key (config results)])
          | Some run =>
              (Ok results,
               mkWorld
                 (<[root := set_experiments
                              (insert key (mkRunDoc (config results) (Some (serialize results))))
                              doc]> (datasets w'))
                 (log w' ++ [UpdateRunConfig root key (config results);
                             SaveRunResults root key (serialize results)]))
          end
      end
  end.
Proof.
  unfold add_model_run. unfold mbind at 1, M_bind at 1.
  destruct (load_run_results samples key w) as [[[results|]|e] w1]; [|done|done].
  unfold ExperimentResults_add_model_run, logged.
  unfold_registry. run_monad.
  destruct (datasets w1 !! _) as [doc|] eqn:Hdoc; [|done].
  destruct (experiments doc !! key) as [run|] eqn:Hrun; simpl; [|done].
  rewrite lookup_insert_eq. unfold set_experiments; simpl. rewrite lookup_insert_eq. simpl.
  rewrite !insert_insert_eq. by rewrite <- !app_assoc.
Qed.

Lemma cleanup_eval self samples key w :
  cleanup self samples key w =
  match load_run_results samples key w with
  | (Raise e, w') => (Raise e, w')
  | (Ok None, w') => (Raise (AttributeError "experiment_dataset"), w')
  | (Ok (Some results), w') =>
      let aux := _exp_dataset_name results in
      match datasets w' !! aux with
      | None => (Raise (NotFound aux), w')
      | Some _ =>
          match results_cls results with
          | ExperimentResultsBase =>
              (Raise (NotImplementedError "subclass must implement cleanup()"),
               mkWorld (delete aux (datasets w'))
                 (log w' ++ [DeleteDataset aux; ResultsCleanup (serialize results)]))
          | ManualExperimentResults =>
              (Ok tt,
               mkWorld (delete aux (datasets w'))
                 (log w' ++ [DeleteDataset aux; ResultsCleanup (serialize results)]))
          end
      end
  end.
Proof.
  unfold cleanup. unfold mbind at 1, M_bind at 1.
  destruct (load_run_results samples key w) as [[[results|]|e] w1]; [|done|done].
  unfold_registry. run_monad.
  destruct (datasets w1 !! _) as [doc|] eqn:Hdoc; simpl; [|done].
  rewrite Hdoc. simpl.
  destruct (results_cls results); simpl; by rewrite <- !app_assoc.
Qed.

Lemma new_events_logged {A} (m : M World A) w evs :
  log (snd (m w)) = (log w ++ evs)%list -> new_events m w = evs.
Proof.
  intros H. unfold new_events. rewrite H.
  change (@List.skipn Event) with (@drop Event). by rewrite drop_app_length.
Qed.

Lemma new_events_unchanged {A} (m : M World A) w r :
  m w = (r, w) -> new_events m w = [].
Proof.
  intros H. unfold new_events. rewrite H. simpl.
  change (@List.skipn Event) with (@drop Event). by rewrite drop_all.
Qed.

Lemma parse_config_manual b lf exp_key kw :
  b = None \/ b = Some "manual" ->
  _parse_config b lf exp_key kw = Ok (ManualExperimentBackendConfig lf exp_key (kw !! "exp_dir")).
Proof. by intros [-> | ->]. Qed.

Lemma parse_config_unsupported b lf exp_key kw :
  b <> "manual" ->
  _parse_config (Some b) lf exp_key kw
  = Raise (ValueError ("Unsupported experiment backend '" ++ b ++ "'")).
Proof.
  intros Hb. unfold _parse_config.
  destruct (String.eqb_spec b "manual"); [contradiction|reflexivity].
Qed.

(** C4: for every backend identifier other than None and "manual",
    [register_experiment] raises a ValueError and leaves the world, log
    included, exactly as it was: no requirements check, no auxiliary dataset,
    no registration, no results saved. For backend None the "manual"
    configuration is selected. *)
Theorem unsupported_backend_fails_before_any_effect
    samples exp_key lf (backend : option string) kw w :
  backend <> None -> backend <> Some "manual" ->
  (exists msg,
      register_experiment samples exp_key lf backend kw w = (Raise (ValueError msg), w))
  /\ new_events (register_experiment samples exp_key lf backend kw) w = []
  /\ _parse_config None lf exp_key kw
     = Ok (ManualExperimentBackendConfig lf exp_key (kw !! "exp_dir"))
  /\ method (ManualExperimentBackendConfig lf exp_key (kw !! "exp_dir")) = "manual".
Proof.
  intros Hnone Hmanual.
  destruct backend as [b|]; [|contradiction].
  assert (Hb : b <> "manual") by congruence.
  assert (Hrun : register_experiment samples exp_key lf (Some b) kw w
                 = (Raise (ValueError ("Unsupported experiment backend '" ++ b ++ "'")), w)).
  { rewrite register_experiment_eval. by rewrite parse_config_unsupported. }
  split; [eauto|]. split; [by eapply new_events_unchanged|]. split; reflexivity.
Qed.

Lemma unsupported_backend_fails_before_any_effect_witness :
  new_events (register_experiment demo_samples "k" None (Some "mlflow") ∅) demo_world = [].
Proof.
  apply (unsupported_backend_fails_before_any_effect demo_samples "k" None (Some "mlflow") ∅ demo_world);
    discriminate.
Defined.

Lemma register_experiment_ok_inv samples exp_key lf b kw w r w1 :
  register_experiment samples exp_key lf b kw w = (Ok r, w1) ->
  exists cfg doc,
    _parse_config b lf exp_key kw = Ok cfg
    /\ datasets w !! exp_dataset_name_of samples exp_key = None
    /\ datasets w !! name (_root_dataset samples) = Some doc
    /\ experiments doc !! exp_key = None
    /\ r = manual_results samples cfg exp_key
    /\ datasets w1
       = <[name (_root_dataset samples) :=
             set_experiments (insert exp_key (mkRunDoc cfg (Some (serialize r)))) doc]>
           (<[exp_dataset_name_of samples exp_key := aux_doc samples exp_key cfg]> (datasets w))
    /\ log w1 = (log w ++
         [EnsureRequirements "manual";
          CloneDataset (exp_dataset_name_of samples exp_key) (_make_exp_collection_name samples exp_key);
          SetPersistent (exp_dataset_name_of samples exp_key) true;
          RegisterRun (name (_root_dataset samples)) exp_key false;
          SaveRunResults (name (_root_dataset samples)) exp_key (serialize r)])%list.
Proof.
  rewrite register_experiment_eval.
  destruct (_parse_config b lf exp_key kw) as [cfg|]; [|discriminate].
  simpl.
  destruct (datasets w !! exp_dataset_name_of samples exp_key) eqn:Haux; [discriminate|].
  destruct (datasets w !! name (_root_dataset samples)) as [doc|] eqn:Hroot; [|discriminate].
  destruct (experiments doc !! exp_key) eqn:Hkey; [discriminate|].
  intros [= <- <-]. exists cfg, doc. simpl. repeat split; auto.
Qed.

(** C5: [register_experiment] registers its run with [overwrite=False]: a
    call that returns has made one registration, of [exp_key] on the root
    dataset with [overwrite=False], and the run is registered afterwards
    with the results saved, so that [register_run] without overwrite raises
    AlreadyExists for the key and changes nothing. A second call with the
    same [exp_key] on the same samples, whatever its other arguments, fails
    AlreadyExists: in the state the first call left, already when it creates
    the auxiliary dataset, whose name is taken; and with that dataset out of
    the way, at [register_run], the last call it makes, for the key, the
    root dataset's document staying as the first call left it. *)
Theorem register_experiment_twice_fails
    samples exp_key lf1 b1 kw1 lf2 b2 kw2 w r w1 :
  register_experiment samples exp_key lf1 b1 kw1 w = (Ok r, w1) ->
  b2 = None \/ b2 = Some "manual" ->
  (forall d k o,
      RegisterRun d k o ∈ new_events (register_experiment samples exp_key lf1 b1 kw1) w ->
      d = name (_root_dataset samples) /\ k = exp_key /\ o = false)
  /\ RegisterRun (name (_root_dataset samples)) exp_key false
       ∈ new_events (register_experiment samples exp_key lf1 b1 kw1) w
  /\ (exists doc1,
        datasets w1 !! name (_root_dataset samples) = Some doc1
        /\ experiments doc1 !! exp_key = Some (mkRunDoc (config r) (Some (serialize r)))
        /\ forall self',
            register_run self' samples exp_key false w1
            = (Raise (AlreadyExists exp_key),
               logged w1 [RegisterRun (name (_root_dataset samples)) exp_key false]))
  /\ (exists w2,
        register_experiment samples exp_key lf2 b2 kw2 w1
        = (Raise (AlreadyExists (exp_dataset_name_of samples exp_key)), w2)
        /\ datasets w2 = datasets w1)
  /\ (forall w1',
        datasets w1' = delete (exp_dataset_name_of samples exp_key) (datasets w1) ->
        exists w2,
          register_experiment samples exp_key lf2 b2 kw2 w1'
          = (Raise (AlreadyExists exp_key), w2)
          /\ new_events (register_experiment samples exp_key lf2 b2 kw2) w1'
             = [EnsureRequirements "manual";
                CloneDataset (exp_dataset_name_of samples exp_key)
                  (_make_exp_collection_name samples exp_key);
                SetPersistent (exp_dataset_name_of samples exp_key) true;
                RegisterRun (name (_root_dataset samples)) exp_key false]
          /\ datasets w2 !! name (_root_dataset samples)
             = datasets w1 !! name (_root_dataset samples)).
Proof.
  intros Hrun Hb2.
  destruct (register_experiment_ok_inv _ _ _ _ _ _ _ _ Hrun)
    as (cfg & doc & Hcfg & Haux & Hroot & Hkey & Hr & Hds & Hlog).
  assert (Hne : exp_dataset_name_of samples exp_key <> name (_root_dataset samples))
    by congruence.
  assert (Hroot1 : datasets w1 !! name (_root_dataset samples)
                   = Some (set_experiments
                             (insert exp_key (mkRunDoc cfg (Some (serialize r)))) doc)).
  { by rewrite Hds, lookup_insert_eq. }
  rewrite (new_events_logged _ w _ ltac:(rewrite Hrun; exact Hlog)).
  split; [|split; [|split; [|split]]].
  - intros d k o Hin. rewrite !elem_of_cons in Hin.
    destruct Hin as [?|[?|[?|[Heq|[?|Hnil]]]]]; try discriminate.
    + by injection Heq as -> -> ->.
    + by apply elem_of_nil in Hnil.
  - rewrite !elem_of_cons. auto 10.
  - eexists. split; [exact Hroot1|]. split.
    + simpl. rewrite lookup_insert_eq. by subst r.
    + intros self'. unfold_registry. run_monad.
      rewrite Hroot1. simpl. by rewrite lookup_insert_eq.
  - rewrite register_experiment_eval, (parse_config_manual _ _ _ _ Hb2). simpl.
    rewrite Hds, lookup_insert_ne, lookup_insert_eq by done.
    eexists. split; [reflexivity|]. simpl. by rewrite Hds.
  - intros w1' Hds'.
    assert (Hrun2 : register_experiment samples exp_key lf2 b2 kw2 w1'
              = (Raise (AlreadyExists exp_key),
                 mkWorld
                   (<[exp_dataset_name_of samples exp_key :=
                        aux_doc samples exp_key
                          (ManualExperimentBackendConfig lf2 exp_key (kw2 !! "exp_dir"))]>
                      (datasets w1'))
                   (log w1' ++
                      [EnsureRequirements "manual";
                       CloneDataset (exp_dataset_name_of samples exp_key)
                         (_make_exp_collection_name samples exp_key);
                       SetPersistent (exp_dataset_name_of samples exp_key) true;
                       RegisterRun (name (_root_dataset samples)) exp_key false]))).
    { rewrite register_experiment_eval, (parse_config_manual _ _ _ _ Hb2). simpl.
      rewrite Hds', lookup_delete_eq, lookup_delete_ne by done.
      rewrite Hroot1. simpl. by rewrite lookup_insert_eq. }
    eexists. split; [exact Hrun2|]. split.
    + apply new_events_logged. by rewrite Hrun2.
    + simpl. by rewrite lookup_insert_ne, Hds', lookup_delete_ne.
Qed.

Lemma register_experiment_twice_fails_witness :
  let w1 := snd (register_experiment demo_samples "k" None None ∅ demo_world) in
  (exists w2,
      register_experiment demo_samples "k" None None ∅ w1
      = (Raise (AlreadyExists "d-view-experiment-k"), w2)
      /\ datasets w2 = datasets w1)
  /\ (exists w2,
        register_experiment demo_samples "k" None None ∅
          (snd (dataset_delete (mkDataset "d-view-experiment-k" "experiment.samples.1-k") w1))
        = (Raise (AlreadyExists "k"), w2)
        /\ new_events (register_experiment demo_samples "k" None None ∅)
             (snd (dataset_delete (mkDataset "d-view-experiment-k" "experiment.samples.1-k") w1))
           = [EnsureRequirements "manual";
              CloneDataset "d-view-experiment-k" "experiment.samples.1-k";
              SetPersistent "d-view-experiment-k" true;
              RegisterRun "d" "k" false]
        /\ datasets w2 !! "d" = datasets w1 !! "d").
Proof.
  intros w1.
  pose proof (register_experiment_twice_fails demo_samples "k" None None ∅ None None ∅
                demo_world _ _ eq_refl (or_introl eq_refl)) as (_ & _ & _ & Hsecond & Hguard).
  split; [exact Hsecond|].
  apply (Hguard (snd (dataset_delete (mkDataset "d-view-experiment-k" "experiment.samples.1-k") w1))).
  vm_compute. reflexivity.
Defined.

(** Whatever became of the auxiliary dataset, a registered key makes
    [register_experiment] fail AlreadyExists. *)
Lemma registered_key_blocks_register_experiment samples exp_key lf b kw w doc :
  b = None \/ b = Some "manual" ->
  datasets w !! name (_root_dataset samples) = Some doc ->
  is_Some (experiments doc !! exp_key) ->
  exists what w', register_experiment samples exp_key lf b kw w = (Raise (AlreadyExists what), w').
Proof.
  intros Hb Hroot [run Hkey].
  rewrite register_experiment_eval, (parse_config_manual _ _ _ _ Hb). simpl.
  destruct (datasets w !! exp_dataset_name_of samples exp_key); [eauto|].
  rewrite Hroot, Hkey. eauto.
Qed.

Lemma add_model_run_ok_inv {P} samples exp_key run_key (preds : P) w results w' :
  add_model_run samples exp_key run_key preds w = (Ok results, w') ->
  exists doc run d,
    datasets w !! name (_root_dataset samples) = Some doc
    /\ experiments doc !! exp_key = Some run
    /\ run_results run = Some d
    /\ d_cls d = ManualExperimentResults
    /\ results = loaded_results samples run d
    /\ datasets w'
       = <[name (_root_dataset samples) :=
             set_experiments
               (insert exp_key (mkRunDoc (config results) (Some (serialize results)))) doc]>
           (datasets w)
    /\ log w' = (log w ++
         [EnsureRequirements "manual";
          UpdateRunConfig (name (_root_dataset samples)) exp_key (config results);
          SaveRunResults (name (_root_dataset samples)) exp_key (serialize results)])%list.
Proof.
  rewrite add_model_run_eval, load_run_results_eval. simpl.
  destruct (datasets w !! name (_root_dataset samples)) as [doc|] eqn:Hroot; [|discriminate].
  destruct (experiments doc !! exp_key) as [run|] eqn:Hkey; [|discriminate].
  destruct (run_results run) as [d|] eqn:Hres; [|discriminate].
  destruct (d_cls d) eqn:Hcls; [discriminate|].
  simpl. rewrite Hroot, Hkey.
  intros [= <- <-]. exists doc, run, d. simpl.
  rewrite <- !app_assoc. repeat split; auto.
Qed.


(** a registered run with stored results: [add_model_run] returns *)
Lemma add_model_run_returns {P : Type} samples exp_key run_key (predictions : P) w doc run d :
  datasets w !! name (_root_dataset samples) = Some doc ->
  experiments doc !! exp_key = Some run ->
  run_results run = Some d ->
  d_cls d = ManualExperimentResults ->
  exists w', add_model_run samples exp_key run_key predictions w
             = (Ok (loaded_results samples run d), w').
Proof.
  intros Hroot Hkey Hres Hcls.
  rewrite add_model_run_eval, load_run_results_eval. simpl.
  rewrite Hroot, Hkey, Hres, Hcls. simpl. rewrite Hroot, Hkey. eauto.
Qed.


Lemma serialize_loaded samples run d :
  d_cls d = ManualExperimentResults -> serialize (loaded_results samples run d) = d.
Proof. destruct d as [c n]. simpl. by intros ->. Qed.

Lemma set_experiments_id doc key run :
  experiments doc !! key = Some run -> set_experiments (insert key run) doc = doc.
Proof.
  intros H. destruct doc as [c p f e]. unfold set_experiments. simpl in *.
  by rewrite insert_id.
Qed.

(** C10: for the manual backend [ExperimentResults.add_model_run] leaves
    the results object as it is and [cleanup] of the results deletes nothing;
    so [add_model_run] saves the payload it loaded and leaves every stored
    document unchanged, and a successful [cleanup] of a run removes the
    auxiliary dataset and nothing else. *)
Theorem manual_backend_changes_nothing (P : Type) :
  (forall results run_key (predictions : P),
      ExperimentResults_add_model_run results run_key predictions = results)
  /\ (forall results w,
        results_cls results = ManualExperimentResults ->
        ExperimentResults_cleanup results w = (Ok tt, w))
  /\ (forall samples exp_key run_key (predictions : P) w results w',
        add_model_run samples exp_key run_key predictions w = (Ok results, w') ->
        (exists doc run,
            datasets w !! name (_root_dataset samples) = Some doc
            /\ experiments doc !! exp_key = Some run
            /\ run_results run = Some (serialize results))
        /\ datasets w' = datasets w)
  /\ (forall self samples exp_key w w',
        cleanup self samples exp_key w = (Ok tt, w') ->
        exists results,
          fst (load_run_results samples exp_key w) = Ok (Some results)
          /\ datasets w' = delete (_exp_dataset_name results) (datasets w)).
Proof.
  split; [reflexivity|]. split; [|split].
  - intros results w Hcls. unfold ExperimentResults_cleanup. by rewrite Hcls.
  - intros samples exp_key run_key predictions w results w' Hrun.
    destruct (add_model_run_ok_inv _ _ _ _ _ _ _ Hrun)
      as (doc & run & d & Hroot & Hkey & Hres & Hcls & Hr & Hds & Hlog).
    assert (Hser : serialize results = d) by (subst results; by apply serialize_loaded).
    split.
    + exists doc, run. by rewrite Hser.
    + rewrite Hds, Hser. subst results. unfold config, loaded_results; simpl.
      rewrite <- Hres. destruct run as [c rr]; simpl.
      rewrite set_experiments_id by done. by apply insert_id.
  - intros self samples exp_key w w'. rewrite cleanup_eval.
    destruct (load_run_results samples exp_key w) as [[[results|]|e] w1] eqn:Hload;
      [|discriminate|discriminate].
    simpl. destruct (datasets w1 !! _); [|discriminate].
    destruct (results_cls results); [discriminate|].
    intros [= <-]. exists results. split; [reflexivity|]. simpl.
    rewrite load_run_results_eval in Hload.
    repeat case_match; simplify_eq; reflexivity.
Qed.

Lemma manual_backend_changes_nothing_witness :
  let w := snd (register_experiment demo_samples "k" None None ∅ demo_world) in
  datasets (snd (add_model_run demo_samples "k" "model-1" tt w)) = datasets w.
Proof.
  intros w.
  destruct (manual_backend_changes_nothing unit) as (_ & _ & Hadd & _).
  refine (proj2 (Hadd demo_samples "k" "model-1" tt w
                   (manual_results demo_samples (ManualExperimentBackendConfig None "k" None) "k")
                   _ _)).
  vm_compute. reflexivity.
Defined.

(** C3 (as amended): a call of [ExperimentBackend.cleanup] that returns has
    loaded the run's results, then deleted the auxiliary dataset named in
    them, then called the results' cleanup hook, in this order and nothing
    else; the hook of the manual backend does nothing, so exactly that
    dataset is gone and no run record is removed. The key is therefore not
    available again: registering it with [overwrite=False] on the same
    samples fails, AlreadyExists when the dataset named in the saved results
    is not the parent dataset itself (as it is for the name
    [register_experiment] gives the auxiliary dataset), NotFound of the
    parent when it is, since [cleanup] has then deleted the parent; and
    [register_experiment] for the key fails as well. *)
Theorem cleanup_deletes_only_the_auxiliary_dataset self samples exp_key w w' :
  cleanup self samples exp_key w = (Ok tt, w') ->
  exists doc run d,
    datasets w !! name (_root_dataset samples) = Some doc
    /\ experiments doc !! exp_key = Some run
    /\ run_results run = Some d
    /\ new_events (cleanup self samples exp_key) w
       = [EnsureRequirements "manual"; DeleteDataset (d_exp_dataset_name d); ResultsCleanup d]
    /\ datasets w' = delete (d_exp_dataset_name d) (datasets w)
    /\ (d_exp_dataset_name d <> name (_root_dataset samples) ->
        datasets w' !! name (_root_dataset samples) = Some doc
        /\ forall self',
            register_run self' samples exp_key false w'
            = (Raise (AlreadyExists exp_key),
               logged w' [RegisterRun (name (_root_dataset samples)) exp_key false]))
    /\ (d_exp_dataset_name d = name (_root_dataset samples) ->
        datasets w' !! name (_root_dataset samples) = None
        /\ forall self',
            register_run self' samples exp_key false w'
            = (Raise (NotFound (name (_root_dataset samples))),
               logged w' [RegisterRun (name (_root_dataset samples)) exp_key false]))
    /\ (d_exp_dataset_name d = exp_dataset_name_of samples exp_key ->
        d_exp_dataset_name d <> name (_root_dataset samples))
    /\ (forall lf b kw, exists e w2,
          register_experiment samples exp_key lf b kw w' = (Raise e, w2)).
Proof.
  intros Hrun. pose proof Hrun as Hrun'. revert Hrun'.
  rewrite cleanup_eval, load_run_results_eval.
  destruct (datasets w !! name (_root_dataset samples)) as [doc|] eqn:Hroot; [|discriminate].
  destruct (experiments doc !! exp_key) as [run|] eqn:Hkey; [|discriminate].
  destruct (run_results run) as [d|] eqn:Hres; [|discriminate].
  destruct (d_cls d) eqn:Hcls; [discriminate|].
  rewrite serialize_loaded by done.
  simpl. destruct (datasets w !! d_exp_dataset_name d) eqn:Haux; [|discriminate].
  intros [= <-]. exists doc, run, d.
  split; [done|]. split; [done|]. split; [done|]. split; [|split; [done|]].
  { apply new_events_logged. rewrite Hrun. simpl. by rewrite <- app_assoc. }
  split; [|split; [|split]].
  - intros Hne. simpl. split; [by rewrite lookup_delete_ne|].
    intros self'. unfold_registry. run_monad.
    rewrite lookup_delete_ne by done. rewrite Hroot. simpl. by rewrite Hkey.
  - intros Heq. simpl. rewrite Heq. split; [by rewrite lookup_delete_eq|].
    intros self'. unfold_registry. run_monad.
    by rewrite lookup_delete_eq.
  - intros Heq Heq'. rewrite Heq in Heq'. unfold exp_dataset_name_of in Heq'. simpl in Heq'.
    apply (f_equal String.length) in Heq'. rewrite !str_length_app in Heq'. simpl in Heq'. lia.
  - intros lf b kw. rewrite register_experiment_eval.
    destruct (_parse_config b lf exp_key kw) as [cfg|e0]; [|eauto]. simpl.
    destruct (delete (d_exp_dataset_name d) (datasets w) !! exp_dataset_name_of samples exp_key);
      [eauto|].
    destruct (delete (d_exp_dataset_name d) (datasets w) !! name (_root_dataset samples))
      as [doc'|] eqn:Hroot'; [|eauto].
    apply lookup_delete_Some in Hroot' as [_ Hroot']. rewrite Hroot in Hroot'.
    injection Hroot' as <-. rewrite Hkey. eauto.
Qed.

Lemma cleanup_deletes_only_the_auxiliary_dataset_witness :
  let w := snd (register_experiment demo_samples "k" None None ∅ demo_world) in
  let w' := snd (cleanup demo_backend demo_samples "k" w) in
  exists doc run d,
    datasets w !! "d" = Some doc
    /\ experiments doc !! "k" = Some run
    /\ run_results run = Some d
    /\ new_events (cleanup demo_backend demo_samples "k") w
       = [EnsureRequirements "manual"; DeleteDataset (d_exp_dataset_name d); ResultsCleanup d]
    /\ datasets w' = delete (d_exp_dataset_name d) (datasets w)
    /\ (d_exp_dataset_name d <> "d" ->
        datasets w' !! "d" = Some doc
        /\ forall self',
            register_run self' demo_samples "k" false w'
            = (Raise (AlreadyExists "k"), logged w' [RegisterRun "d" "k" false]))
    /\ (d_exp_dataset_name d = "d" ->
        datasets w' !! "d" = None
        /\ forall self',
            register_run self' demo_samples "k" false w'
            = (Raise (NotFound "d"), logged w' [RegisterRun "d" "k" false]))
    /\ (d_exp_dataset_name d = exp_dataset_name_of demo_samples "k" ->
        d_exp_dataset_name d <> "d")
    /\ (forall lf b kw, exists e w2,
          register_experiment demo_samples "k" lf b kw w' = (Raise e, w2)).
Proof.
  intros w w'.
  apply (cleanup_deletes_only_the_auxiliary_dataset demo_backend demo_samples "k" w).
  vm_compute. reflexivity.
Defined.

(** The second case occurs: with saved results that name the parent dataset
    "d" itself, [cleanup] returns, "d" is gone with its run records, and
    [register_run] raises NotFound. *)
Example cleanup_of_results_naming_the_parent :
  let w := mkWorld
             {[ "d" := mkDatasetDoc "samples.1" false None
                         {[ "k" := mkRunDoc (ManualExperimentBackendConfig None "k" None)
                                     (Some (mkResultsDict ManualExperimentResults "d")) ]} ]}
             [] in
  let w' := snd (cleanup demo_backend demo_samples "k" w) in
  fst (cleanup demo_backend demo_samples "k" w) = Ok tt
  /\ datasets w' !! "d" = None
  /\ log w' = [EnsureRequirements "manual"; DeleteDataset "d";
               ResultsCleanup (mkResultsDict ManualExperimentResults "d")]
  /\ fst (register_run demo_backend demo_samples "k" false w') = Raise (NotFound "d").
Proof. vm_compute. repeat split; reflexivity. Qed.

(** C3 (as stated) fails: register the experiment "k" on dataset "d", clean
    it up, and [register_run] as well as [register_experiment] for "k" fail
    AlreadyExists. *)
Lemma cleanup_then_register_counterexample :
  let w1 := snd (register_experiment demo_samples "k" None None ∅ demo_world) in
  let w2 := snd (cleanup demo_backend demo_samples "k" w1) in
  fst (register_experiment demo_samples "k" None None ∅ demo_world)
    = Ok (manual_results demo_samples (ManualExperimentBackendConfig None "k" None) "k")
  /\ fst (cleanup demo_backend demo_samples "k" w1) = Ok tt
  /\ fst (register_run demo_backend demo_samples "k" false w2) = Raise (AlreadyExists "k")
  /\ fst (register_experiment demo_samples "k" None None ∅ w2) = Raise (AlreadyExists "k").
Proof. vm_compute. repeat split; reflexivity. Qed.




(** *** More on registration *)

Lemma exp_dataset_name_of_inj samples K1 K2 :
  exp_dataset_name_of samples K1 = exp_dataset_name_of samples K2 -> K1 = K2.
Proof.
  unfold exp_dataset_name_of. intros H.
  apply str_app_inj_l in H. by apply (str_app_inj_l "-experiment-") in H.
Qed.

Lemma parse_config_ok_inv b lf exp_key kw cfg :
  _parse_config b lf exp_key kw = Ok cfg ->
  (b = None \/ b = Some "manual")
  /\ cfg = ManualExperimentBackendConfig lf exp_key (kw !! "exp_dir").
Proof.
  unfold _parse_config. destruct b as [b|]; simpl.
  - destruct (String.eqb_spec b "manual"); [|done]. intros [= <-]. subst. auto.
  - intros [= <-]. auto.
Qed.

(** the state after a successful registration, spelled out *)
Lemma register_experiment_ok_full samples exp_key lf b kw w r w1 :
  register_experiment samples exp_key lf b kw w = (Ok r, w1) ->
  let root := name (_root_dataset samples) in
  let aux := exp_dataset_name_of samples exp_key in
  let cfg := ManualExperimentBackendConfig lf exp_key (kw !! "exp_dir") in
  exists doc,
    (b = None \/ b = Some "manual")
    /\ aux <> root
    /\ datasets w !! aux = None
    /\ datasets w !! root = Some doc
    /\ experiments doc !! exp_key = None
    /\ r = mkResults ManualExperimentResults samples (ManualExperimentBackend cfg) aux
    /\ datasets w1
       = <[root := set_experiments
                    (insert exp_key
                       (mkRunDoc cfg (Some (mkResultsDict ManualExperimentResults aux)))) doc]>
           (<[aux := mkDatasetDoc (_make_exp_collection_name samples exp_key) true lf ∅]>
              (datasets w))
    /\ log w1 = (log w ++
         [EnsureRequirements "manual";
          CloneDataset aux (_make_exp_collection_name samples exp_key);
          SetPersistent aux true;
          RegisterRun root exp_key false;
          SaveRunResults root exp_key (mkResultsDict ManualExperimentResults aux)])%list.
Proof.
  intros Hrun root aux cfg.
  destruct (register_experiment_ok_inv _ _ _ _ _ _ _ _ Hrun)
    as (cfg' & doc & Hcfg & Haux & Hroot & Hkey & Hr & Hds & Hlog).
  destruct (parse_config_ok_inv _ _ _ _ _ Hcfg) as [Hb ->].
  exists doc. subst r. repeat split; try done. unfold aux, root. congruence.
Qed.

(** [register_experiment] returns exactly when the backend is None or
    "manual", the auxiliary dataset name is free, the root dataset exists
    and the key is not registered on it. *)
Theorem register_experiment_returns_iff samples exp_key lf b kw w :
  (exists r w1, register_experiment samples exp_key lf b kw w = (Ok r, w1))
  <-> (b = None \/ b = Some "manual")
      /\ datasets w !! exp_dataset_name_of samples exp_key = None
      /\ exists doc,
          datasets w !! name (_root_dataset samples) = Some doc
          /\ experiments doc !! exp_key = None.
Proof.
  split.
  - intros (r & w1 & Hrun).
    destruct (register_experiment_ok_full _ _ _ _ _ _ _ _ Hrun)
      as (doc & Hb & _ & Haux & Hroot & Hkey & _). eauto 10.
  - intros (Hb & Haux & doc & Hroot & Hkey).
    rewrite register_experiment_eval, (parse_config_manual _ _ _ _ Hb). simpl.
    rewrite Haux, Hroot, Hkey. eauto.
Qed.

Lemma register_experiment_returns_iff_witness :
  exists r w1, register_experiment demo_samples "k" None None ∅ demo_world = (Ok r, w1).
Proof.
  apply (proj2 (register_experiment_returns_iff demo_samples "k" None None ∅ demo_world)).
  split; [by left|]. split; [vm_compute; reflexivity|].
  eexists. split; vm_compute; reflexivity.
Defined.

(** What a successful [register_experiment] leaves: the results object it
    returns, the persistent auxiliary dataset under the conventional names,
    the run registered with the config and the results saved. *)
Theorem register_experiment_success samples exp_key lf b kw w r w1 :
  register_experiment samples exp_key lf b kw w = (Ok r, w1) ->
  r = mkResults ManualExperimentResults samples
        (ManualExperimentBackend (ManualExperimentBackendConfig lf exp_key (kw !! "exp_dir")))
        (exp_dataset_name_of samples exp_key)
  /\ datasets w1 !! exp_dataset_name_of samples exp_key
     = Some (mkDatasetDoc (_make_exp_collection_name samples exp_key) true lf ∅)
  /\ (exists doc1,
        datasets w1 !! name (_root_dataset samples) = Some doc1
        /\ experiments doc1 !! exp_key
           = Some (mkRunDoc (ManualExperimentBackendConfig lf exp_key (kw !! "exp_dir"))
                     (Some (mkResultsDict ManualExperimentResults
                              (exp_dataset_name_of samples exp_key)))))
  /\ new_events (register_experiment samples exp_key lf b kw) w
     = [EnsureRequirements "manual";
        CloneDataset (exp_dataset_name_of samples exp_key)
          (_make_exp_collection_name samples exp_key);
        SetPersistent (exp_dataset_name_of samples exp_key) true;
        RegisterRun (name (_root_dataset samples)) exp_key false;
        SaveRunResults (name (_root_dataset samples)) exp_key
          (mkResultsDict ManualExperimentResults (exp_dataset_name_of samples exp_key))].
Proof.
  intros Hrun.
  destruct (register_experiment_ok_full _ _ _ _ _ _ _ _ Hrun)
    as (doc & Hb & Hne & Haux & Hroot & Hkey & Hr & Hds & Hlog).
  split; [exact Hr|]. split; [|split].
  - by rewrite Hds, lookup_insert_ne, lookup_insert_eq.
  - rewrite Hds, lookup_insert_eq. eexists. split; [done|]. simpl.
    by rewrite lookup_insert_eq.
  - by rewrite (new_events_logged _ w _ ltac:(rewrite Hrun; exact Hlog)).
Qed.

Lemma register_experiment_success_witness :
  datasets (snd (register_experiment demo_samples "k" (Some ["label"]) None ∅ demo_world))
    !! "d-view-experiment-k"
  = Some (mkDatasetDoc "experiment.samples.1-k" true (Some ["label"]) ∅).
Proof.
  pose proof (register_experiment_success demo_samples "k" (Some ["label"]) None ∅ demo_world
                _ _ eq_refl) as (_ & Haux & _).
  exact Haux.
Defined.

(** A successful [register_experiment] touches nothing else: every other
    dataset is as before, and the root dataset keeps its collection, its
    persistence flag, its fields and all its other run records. *)
Theorem register_experiment_frame samples exp_key lf b kw w r w1 :
  register_experiment samples exp_key lf b kw w = (Ok r, w1) ->
  (forall n,
      n <> name (_root_dataset samples) -> n <> exp_dataset_name_of samples exp_key ->
      datasets w1 !! n = datasets w !! n)
  /\ exists doc doc1,
      datasets w !! name (_root_dataset samples) = Some doc
      /\ datasets w1 !! name (_root_dataset samples) = Some doc1
      /\ doc_sample_collection_name doc1 = doc_sample_collection_name doc
      /\ persistent doc1 = persistent doc
      /\ doc_fields doc1 = doc_fields doc
      /\ forall k, k <> exp_key -> experiments doc1 !! k = experiments doc !! k.
Proof.
  intros Hrun.
  destruct (register_experiment_ok_full _ _ _ _ _ _ _ _ Hrun)
    as (doc & Hb & Hne & Haux & Hroot & Hkey & Hr & Hds & Hlog).
  split.
  - intros n Hn1 Hn2. by rewrite Hds, !lookup_insert_ne.
  - exists doc. eexists. split; [done|]. split; [by rewrite Hds, lookup_insert_eq|].
    simpl. repeat split. intros k Hk. by rewrite lookup_insert_ne.
Qed.

Lemma register_experiment_frame_witness :
  datasets (snd (register_experiment demo_samples "k" None None ∅ demo_world)) !! "other"
  = datasets demo_world !! "other".
Proof.
  pose proof (register_experiment_frame demo_samples "k" None None ∅ demo_world
                _ _ eq_refl) as (Hother & _).
  apply (Hother "other"); discriminate.
Defined.

(** Round trip: what [register_experiment] returned is what
    [load_run_results] gives back, and its [experiment_dataset] is the
    auxiliary dataset. *)
Theorem registered_results_load_back samples exp_key lf b kw w r w1 :
  register_experiment samples exp_key lf b kw w = (Ok r, w1) ->
  load_run_results samples exp_key w1 = (Ok (Some r), logged w1 [EnsureRequirements "manual"])
  /\ experiment_dataset r w1
     = (Ok (mkDataset (exp_dataset_name_of samples exp_key)
              (_make_exp_collection_name samples exp_key)), w1).
Proof.
  intros Hrun.
  destruct (register_experiment_ok_full _ _ _ _ _ _ _ _ Hrun)
    as (doc & Hb & Hne & Haux & Hroot & Hkey & Hr & Hds & Hlog).
  split.
  - rewrite load_run_results_eval, Hds, lookup_insert_eq. simpl.
    rewrite lookup_insert_eq. simpl. by subst r.
  - unfold experiment_dataset, load_dataset. run_monad. subst r. simpl.
    by rewrite Hds, lookup_insert_ne, lookup_insert_eq.
Qed.

Lemma registered_results_load_back_witness :
  fst (load_run_results demo_samples "k"
         (snd (register_experiment demo_samples "k" None None ∅ demo_world)))
  = Ok (Some (manual_results demo_samples (ManualExperimentBackendConfig None "k" None) "k")).
Proof.
  pose proof (registered_results_load_back demo_samples "k" None None ∅ demo_world
                _ _ eq_refl) as (Hload & _).
  apply (f_equal fst) in Hload. exact Hload.
Defined.

(** A second experiment under another key can be registered on the same
    samples: the two get different auxiliary datasets and both runs are
    registered afterwards. *)
Theorem register_second_experiment samples K1 K2 lf1 b1 kw1 lf2 b2 kw2 w r1 w1 :
  register_experiment samples K1 lf1 b1 kw1 w = (Ok r1, w1) ->
  K1 <> K2 ->
  b2 = None \/ b2 = Some "manual" ->
  datasets w !! exp_dataset_name_of samples K2 = None ->
  (forall doc, datasets w !! name (_root_dataset samples) = Some doc ->
               experiments doc !! K2 = None) ->
  exists r2 w2 doc2,
    register_experiment samples K2 lf2 b2 kw2 w1 = (Ok r2, w2)
    /\ _exp_dataset_name r1 <> _exp_dataset_name r2
    /\ is_Some (datasets w2 !! _exp_dataset_name r1)
    /\ is_Some (datasets w2 !! _exp_dataset_name r2)
    /\ datasets w2 !! name (_root_dataset samples) = Some doc2
    /\ is_Some (experiments doc2 !! K1)
    /\ is_Some (experiments doc2 !! K2).
Proof.
  intros Hrun HK Hb2 Haux2 Hkey2.
  destruct (register_experiment_ok_full _ _ _ _ _ _ _ _ Hrun)
    as (doc & Hb & Hne1 & Haux1 & Hroot & Hkey1 & Hr1 & Hds & Hlog).
  assert (Hne12 : exp_dataset_name_of samples K1 <> exp_dataset_name_of samples K2).
  { intros H. by apply exp_dataset_name_of_inj in H. }
  assert (Hne2 : exp_dataset_name_of samples K2 <> name (_root_dataset samples)) by congruence.
  assert (Hrun2 : exists r2 w2, register_experiment samples K2 lf2 b2 kw2 w1 = (Ok r2, w2)).
  { rewrite register_experiment_eval, (parse_config_manual _ _ _ _ Hb2). simpl.
    rewrite Hds. rewrite !(lookup_insert_ne _ _ (exp_dataset_name_of samples K2)) by done.
    rewrite Haux2, lookup_insert_eq. simpl.
    rewrite lookup_insert_ne by done. rewrite (Hkey2 doc Hroot). eauto. }
  destruct Hrun2 as (r2 & w2 & Hrun2).
  destruct (register_experiment_ok_full _ _ _ _ _ _ _ _ Hrun2)
    as (doc1 & _ & _ & _ & Hroot1 & _ & Hr2 & Hds2 & _).
  rewrite Hds, lookup_insert_eq in Hroot1. injection Hroot1 as <-.
  eexists r2, w2, _. split; [done|]. subst r1 r2. simpl.
  split; [done|]. split; [|split; [|split; [|split]]].
  - rewrite Hds2, Hds, !(lookup_insert_ne _ _ (exp_dataset_name_of samples K1)) by done.
    by rewrite lookup_insert_eq.
  - by rewrite Hds2, lookup_insert_ne, lookup_insert_eq.
  - by rewrite Hds2, lookup_insert_eq.
  - simpl. rewrite lookup_insert_ne by done. by rewrite lookup_insert_eq.
  - simpl. by rewrite lookup_insert_eq.
Qed.

Lemma register_second_experiment_witness :
  exists r2 w2 doc2,
    register_experiment demo_samples "k2" None None ∅
      (snd (register_experiment demo_samples "k" None None ∅ demo_world)) = (Ok r2, w2)
    /\ "d-view-experiment-k" <> _exp_dataset_name r2
    /\ is_Some (datasets w2 !! "d-view-experiment-k")
    /\ is_Some (datasets w2 !! _exp_dataset_name r2)
    /\ datasets w2 !! "d" = Some doc2
    /\ is_Some (experiments doc2 !! "k")
    /\ is_Some (experiments doc2 !! "k2").
Proof.
  apply (register_second_experiment demo_samples "k" "k2" None None ∅ None None ∅ demo_world
           (manual_results demo_samples (ManualExperimentBackendConfig None "k" None) "k")).
  - vm_compute. reflexivity.
  - discriminate.
  - by left.
  - vm_compute. reflexivity.
  - intros doc. vm_compute. intros [= <-]. reflexivity.
Defined.

(** *** More on model runs and cleanup *)

Lemma load_run_results_raise_inv samples key w e w' :
  load_run_results samples key w = (Raise e, w') -> w' = w.
Proof.
  rewrite load_run_results_eval. repeat case_match; by intros [= <- <-].
Qed.

Lemma load_run_results_ok_inv samples key w o w' :
  load_run_results samples key w = (Ok o, w') ->
  exists doc run,
    datasets w !! name (_root_dataset samples) = Some doc
    /\ experiments doc !! key = Some run
    /\ match o with
       | None => run_results run = None /\ w' = w
       | Some results =>
           exists d, run_results run = Some d
                     /\ d_cls d = ManualExperimentResults
                     /\ results = loaded_results samples run d
                     /\ w' = logged w [EnsureRequirements "manual"]
       end.
Proof.
  rewrite load_run_results_eval.
  destruct (datasets w !! _) as [doc|] eqn:Hroot; [|done].
  destruct (experiments doc !! key) as [run|] eqn:Hkey; [|done].
  destruct (run_results run) as [d|] eqn:Hres.
  - destruct (d_cls d) eqn:Hcls; [done|]. intros [= <- <-].
    exists doc, run. split; [done|]. split; [done|]. exists d. auto.
  - intros [= <- <-]. exists doc, run. auto.
Qed.

Lemma add_model_run_keeps_datasets {P : Type} samples exp_key run_key (predictions : P) w :
  datasets (snd (add_model_run samples exp_key run_key predictions w)) = datasets w.
Proof.
  rewrite add_model_run_eval.
  destruct (load_run_results samples exp_key w) as [[[results|]|e] w1] eqn:Hload.
  - destruct (load_run_results_ok_inv _ _ _ _ _ Hload)
      as (doc & run & Hroot & Hkey & d & Hres & Hcls & -> & ->).
    simpl. rewrite Hroot, Hkey. simpl.
    rewrite serialize_loaded by done. unfold config, loaded_results. simpl.
    rewrite <- Hres. destruct run as [c rr]. simpl.
    rewrite set_experiments_id by done. by apply insert_id.
  - destruct (load_run_results_ok_inv _ _ _ _ _ Hload) as (doc & run & _ & _ & _ & ->).
    done.
  - apply load_run_results_raise_inv in Hload as ->. done.
Qed.

(** [add_model_run] never changes a stored document, whether it returns or
    raises; when it raises, nothing at all has happened: in particular no
    config update and no save were attempted. *)
Theorem add_model_run_never_changes_the_database {P : Type}
    samples exp_key run_key (predictions : P) w :
  datasets (snd (add_model_run samples exp_key run_key predictions w)) = datasets w
  /\ forall e, fst (add_model_run samples exp_key run_key predictions w) = Raise e ->
               snd (add_model_run samples exp_key run_key predictions w) = w.
Proof.
  split; [apply add_model_run_keeps_datasets|].
  rewrite add_model_run_eval.
  destruct (load_run_results samples exp_key w) as [[[results|]|e] w1] eqn:Hload.
  - destruct (load_run_results_ok_inv _ _ _ _ _ Hload)
      as (doc & run & Hroot & Hkey & d & Hres & Hcls & -> & ->).
    simpl. rewrite Hroot, Hkey. done.
  - destruct (load_run_results_ok_inv _ _ _ _ _ Hload) as (doc & run & _ & _ & _ & ->).
    done.
  - apply load_run_results_raise_inv in Hload as ->. done.
Qed.

(** [add_model_run] can be repeated: after a call that returned, any later
    call for the same run returns the same results object and leaves the
    same stored documents. *)
Theorem add_model_run_repeatable {P Q : Type}
    samples exp_key run_key1 (predictions1 : P) run_key2 (predictions2 : Q) w results w1 :
  add_model_run samples exp_key run_key1 predictions1 w = (Ok results, w1) ->
  exists w2,
    add_model_run samples exp_key run_key2 predictions2 w1 = (Ok results, w2)
    /\ datasets w2 = datasets w.
Proof.
  intros Hrun.
  destruct (add_model_run_ok_inv _ _ _ _ _ _ _ Hrun)
    as (doc & run & d & Hroot & Hkey & Hres & Hcls & -> & Hds & Hlog).
  pose proof (add_model_run_keeps_datasets samples exp_key run_key1 predictions1 w) as Hsame.
  rewrite Hrun in Hsame. simpl in Hsame.
  destruct (add_model_run_returns samples exp_key run_key2 predictions2 w1 doc run d)
    as [w2 Hrun2]; try done; [by rewrite Hsame|].
  exists w2. split; [done|].
  pose proof (add_model_run_keeps_datasets samples exp_key run_key2 predictions2 w1) as Hsame2.
  rewrite Hrun2 in Hsame2. simpl in Hsame2. congruence.
Qed.

Lemma add_model_run_repeatable_witness :
  let w := snd (register_experiment demo_samples "k" None None ∅ demo_world) in
  exists w2,
    add_model_run demo_samples "k" "model-2" [4; 5]
      (snd (add_model_run demo_samples "k" "model-1" tt w))
    = (Ok (manual_results demo_samples (ManualExperimentBackendConfig None "k" None) "k"), w2)
    /\ datasets w2 = datasets w.
Proof.
  intros w.
  apply (add_model_run_repeatable demo_samples "k" "model-1" tt "model-2" [4; 5] w).
  vm_compute. reflexivity.
Defined.

(** [cleanup] is all or nothing: a call that raises has deleted nothing and
    leaves every stored document as it was. *)
Theorem failed_cleanup_changes_nothing self samples exp_key w e w' :
  cleanup self samples exp_key w = (Raise e, w') ->
  datasets w' = datasets w
  /\ forall d, DeleteDataset d ∉ new_events (cleanup self samples exp_key) w.
Proof.
  intros Hrun. pose proof Hrun as Hrun'. revert Hrun'. rewrite cleanup_eval.
  destruct (load_run_results samples exp_key w) as [[[results|]|e0] w1] eqn:Hload.
  - destruct (load_run_results_ok_inv _ _ _ _ _ Hload)
      as (doc & run & Hroot & Hkey & d & Hres & Hcls & -> & ->).
    simpl. destruct (datasets w !! d_exp_dataset_name d); [done|].
    intros [= <- <-]. split; [done|]. intros dn.
    rewrite (new_events_logged _ w [EnsureRequirements "manual"]) by (by rewrite Hrun).
    rewrite elem_of_cons, elem_of_nil. by intros [?|?].
  - destruct (load_run_results_ok_inv _ _ _ _ _ Hload) as (doc & run & _ & _ & _ & ->).
    intros [= <- <-]. split; [done|]. intros dn.
    rewrite (new_events_unchanged _ _ _ Hrun). apply not_elem_of_nil.
  - apply load_run_results_raise_inv in Hload as ->.
    intros [= <- <-]. split; [done|]. intros dn.
    rewrite (new_events_unchanged _ _ _ Hrun). apply not_elem_of_nil.
Qed.

Lemma failed_cleanup_changes_nothing_witness :
  datasets (snd (cleanup demo_backend demo_samples "missing" demo_world)) = datasets demo_world.
Proof.
  refine (proj1 (failed_cleanup_changes_nothing demo_backend demo_samples "missing" demo_world
                   (NotFound "missing") _ _)).
  vm_compute. reflexivity.
Defined.

(** [cleanup] cannot be repeated: after a successful cleanup that left the
    parent dataset in place, the run is still registered with its saved
    results, the auxiliary dataset they name is gone, and a second cleanup
    raises NotFound of that auxiliary dataset after loading the results,
    with no deletion and no stored document changed. *)
Theorem cleanup_twice_fails self self' samples exp_key w w1 :
  cleanup self samples exp_key w = (Ok tt, w1) ->
  is_Some (datasets w1 !! name (_root_dataset samples)) ->
  exists doc run d,
    datasets w1 !! name (_root_dataset samples) = Some doc
    /\ experiments doc !! exp_key = Some run
    /\ run_results run = Some d
    /\ is_Some (datasets w !! d_exp_dataset_name d)
    /\ datasets w1 !! d_exp_dataset_name d = None
    /\ cleanup self' samples exp_key w1
       = (Raise (NotFound (d_exp_dataset_name d)), logged w1 [EnsureRequirements "manual"]).
Proof.
  rewrite cleanup_eval.
  destruct (load_run_results samples exp_key w) as [[[results|]|e0] w0] eqn:Hload; [|done|done].
  destruct (load_run_results_ok_inv _ _ _ _ _ Hload)
    as (doc & run & Hroot & Hkey & d & Hres & Hcls & -> & ->).
  simpl. destruct (datasets w !! d_exp_dataset_name d) eqn:Haux; [|done].
  intros [= <-]. simpl. intros [doc1 Hroot1].
  assert (Hne : d_exp_dataset_name d <> name (_root_dataset samples)).
  { intros Heq. rewrite <- Heq, lookup_delete_eq in Hroot1. done. }
  exists doc, run, d.
  split; [by rewrite lookup_delete_ne|]. split; [done|]. split; [done|].
  split; [done|]. split; [by rewrite lookup_delete_eq|].
  rewrite cleanup_eval, load_run_results_eval. simpl.
  rewrite lookup_delete_ne by done. rewrite Hroot, Hkey, Hres, Hcls. simpl.
  by rewrite lookup_delete_eq.
Qed.

Lemma cleanup_twice_fails_witness :
  let w := snd (register_experiment demo_samples "k" None None ∅ demo_world) in
  let w1 := snd (cleanup demo_backend demo_samples "k" w) in
  exists doc run d,
    datasets w1 !! "d" = Some doc
    /\ experiments doc !! "k" = Some run
    /\ run_results run = Some d
    /\ is_Some (datasets w !! d_exp_dataset_name d)
    /\ datasets w1 !! d_exp_dataset_name d = None
    /\ cleanup demo_backend demo_samples "k" w1
       = (Raise (NotFound (d_exp_dataset_name d)), logged w1 [EnsureRequirements "manual"]).
Proof.
  intros w w1.
  apply (cleanup_twice_fails demo_backend demo_backend demo_samples "k" w).
  - vm_compute. reflexivity.
  - eexists. vm_compute. reflexivity.
Defined.

(** On the database of the example the second cleanup names the auxiliary
    dataset "d-view-experiment-k", not the key. *)
Example cleanup_twice_on_the_demo_database :
  let w := snd (register_experiment demo_samples "k" None None ∅ demo_world) in
  let w1 := snd (cleanup demo_backend demo_samples "k" w) in
  fst (cleanup demo_backend demo_samples "k" w) = Ok tt
  /\ fst (cleanup demo_backend demo_samples "k" w1) = Raise (NotFound "d-view-experiment-k")
  /\ datasets (snd (cleanup demo_backend demo_samples "k" w1)) = datasets w1.
Proof. vm_compute. repeat split; reflexivity. Qed.

(** *** Finding the parent again *)

Lemma get_dataset_unique coll n doc w :
  datasets w !! n = Some doc ->
  doc_sample_collection_name doc = coll ->
  (forall n' doc', datasets w !! n' = Some doc' -> doc_sample_collection_name doc' = coll -> n' = n) ->
  _get_dataset coll w = (Ok (mkDataset n coll), w).
Proof.
  intros Hn Hc Huniq. unfold _get_dataset. run_monad.
  destruct (List.filter _ (map_to_list (datasets w))) as [|e l] eqn:Hf.
  - exfalso. assert (Hin : In (n, doc) (List.filter
        (fun e => String.eqb (doc_sample_collection_name (snd e)) coll)
        (map_to_list (datasets w)))).
    { apply filter_In. split.
      - apply list_elem_of_In. by apply elem_of_map_to_list.
      - simpl. by apply String.eqb_eq. }
    rewrite Hf in Hin. done.
  - assert (Hin : In e (List.filter
        (fun e => String.eqb (doc_sample_collection_name (snd e)) coll)
        (map_to_list (datasets w)))) by (rewrite Hf; by left).
    apply filter_In in Hin as [Hin Heq]. apply String.eqb_eq in Heq.
    apply list_elem_of_In in Hin. destruct e as [n' doc']. apply elem_of_map_to_list in Hin.
    simpl in *. by rewrite (Huniq n' doc' Hin Heq).
Qed.

(** From a registered experiment back to its parent: when the parent's
    collection name has no "-" and no other dataset is stored in that
    collection, [get_parent_dataset] of the experiment's dataset is the
    dataset the experiment was registered on. *)
Theorem registered_experiment_finds_its_parent samples exp_key lf b kw w r w1 doc :
  register_experiment samples exp_key lf b kw w = (Ok r, w1) ->
  PyStr.contains "-" (_sample_collection_name (_root_dataset samples)) = false ->
  datasets w !! name (_root_dataset samples) = Some doc ->
  doc_sample_collection_name doc = _sample_collection_name (_root_dataset samples) ->
  (forall n' doc',
      datasets w !! n' = Some doc' ->
      doc_sample_collection_name doc' = _sample_collection_name (_root_dataset samples) ->
      n' = name (_root_dataset samples)) ->
  exists exp_dataset,
    experiment_dataset r w1 = (Ok exp_dataset, w1)
    /\ get_parent_dataset exp_dataset w1 = (Ok (_root_dataset samples), w1).
Proof.
  intros Hrun HP Hroot Hcoll Huniq. rewrite contains_char_mem in HP.
  destruct (register_experiment_ok_full _ _ _ _ _ _ _ _ Hrun)
    as (doc0 & Hb & Hne & Haux & Hroot0 & Hkey & Hr & Hds & Hlog).
  rewrite Hroot in Hroot0. injection Hroot0 as <-.
  eexists. split.
  - unfold experiment_dataset, load_dataset. run_monad. subst r. simpl.
    rewrite Hds, lookup_insert_ne, lookup_insert_eq by done. reflexivity.
  - unfold get_parent_dataset. simpl. rewrite parse_make by done.
    transitivity (Ok (mkDataset (name (_root_dataset samples))
                        (_sample_collection_name (_root_dataset samples))), w1);
      [|by destruct (_root_dataset samples)].
    eapply get_dataset_unique.
    + by rewrite Hds, lookup_insert_eq.
    + done.
    + intros n' doc'. rewrite Hds.
      destruct (decide (n' = name (_root_dataset samples))) as [->|Hn]; [done|].
      rewrite lookup_insert_ne by done.
      destruct (decide (n' = exp_dataset_name_of samples exp_key)) as [->|Hn'].
      * rewrite lookup_insert_eq. intros [= <-]. simpl. intros Heq. exfalso.
        apply (f_equal String.length) in Heq. unfold _make_exp_collection_name in Heq.
        rewrite !str_length_app in Heq. simpl in Heq. lia.
      * rewrite lookup_insert_ne by done. apply Huniq.
Qed.

Lemma registered_experiment_finds_its_parent_witness :
  exists exp_dataset,
    experiment_dataset
      (manual_results demo_samples (ManualExperimentBackendConfig None "k" None) "k")
      (snd (register_experiment demo_samples "k" None None ∅ demo_world))
    = (Ok exp_dataset, snd (register_experiment demo_samples "k" None None ∅ demo_world))
    /\ get_parent_dataset exp_dataset
         (snd (register_experiment demo_samples "k" None None ∅ demo_world))
       = (Ok (mkDataset "d" "samples.1"),
          snd (register_experiment demo_samples "k" None None ∅ demo_world)).
Proof.
  apply (registered_experiment_finds_its_parent demo_samples "k" None None ∅ demo_world
           _ _ (mkDatasetDoc "samples.1" false None ∅)).
  - vm_compute. reflexivity.
  - reflexivity.
  - vm_compute. reflexivity.
  - reflexivity.
  - intros n' doc' Hn _. unfold demo_world in Hn. simpl in Hn.
    apply lookup_singleton_Some in Hn as [<- _]. reflexivity.
Defined.

(** [add_model_run] returns exactly on a run that is registered on the root
    dataset with saved results of the manual class. *)
Theorem add_model_run_returns_iff {P : Type} samples exp_key run_key (predictions : P) w :
  (exists results w', add_model_run samples exp_key run_key predictions w = (Ok results, w'))
  <-> exists doc run d,
        datasets w !! name (_root_dataset samples) = Some doc
        /\ experiments doc !! exp_key = Some run
        /\ run_results run = Some d
        /\ d_cls d = ManualExperimentResults.
Proof.
  split.
  - intros (results & w' & Hrun).
    destruct (add_model_run_ok_inv _ _ _ _ _ _ _ Hrun)
      as (doc & run & d & Hroot & Hkey & Hres & Hcls & _).
    exists doc, run, d. auto.
  - intros (doc & run & d & Hroot & Hkey & Hres & Hcls).
    destruct (add_model_run_returns samples exp_key run_key predictions w doc run d)
      as [w' Hrun]; eauto.
Qed.

Lemma add_model_run_returns_iff_witness :
  exists results w',
    add_model_run demo_samples "k" "model-1" tt
      (snd (register_experiment demo_samples "k" None None ∅ demo_world))
    = (Ok results, w').
Proof.
  apply (proj2 (add_model_run_returns_iff demo_samples "k" "model-1" tt
                  (snd (register_experiment demo_samples "k" None None ∅ demo_world)))).
  do 3 eexists. repeat split; vm_compute; reflexivity.
Defined.

Lemma registered_key_blocks_register_experiment_witness :
  let w := snd (cleanup demo_backend demo_samples "k"
                  (snd (register_experiment demo_samples "k" None None ∅ demo_world))) in
  exists what w', register_experiment demo_samples "k" None None ∅ w
                  = (Raise (AlreadyExists what), w').
Proof.
  intros w.
  eapply (registered_key_blocks_register_experiment demo_samples "k" None None ∅ w).
  - by left.
  - vm_compute. reflexivity.
  - eexists. vm_compute. reflexivity.
Defined.

(** ** The dataset core *)

Import Core.

Ltac unfold_core :=
  unfold add, attach, add_field, add_fields, delete_field, get, remove, first, iter_view,
    get_field, new_sample, create_dataset, deref, get_dataset, put_dataset, set_heap,
    alloc, fresh_id in *.

Lemma get_eval dname i w :
  get dname i w =
  match datasets w !! dname with
  | None => (Raise (NotFound dname), w)
  | Some ds =>
      match cache ds !! i with
      | Some r => (Ok r, w)
      | None =>
          match docs ds !! i with
          | None => (Raise (NotFound "sample id"), w)
          | Some doc =>
              (Ok (next_ref w),
               mkWorld
                 (<[next_ref w := mkSample (Some i) (Some dname)
                                    (doc ∪ (default_value <$> schema ds))]> (heap w))
                 (S (next_ref w))
                 (<[dname := mkDataset (schema ds) (<[i := next_ref w]> (cache ds)) (docs ds)]>
                    (datasets w))
                 (next_id w))
          end
      end
  end.
Proof.
  unfold_core. run_monad.
  destruct (datasets w !! dname) as [ds|]; [|done].
  destruct (cache ds !! i); [done|]. by destruct (docs ds !! i).
Qed.

Lemma get_cached dname i r w : cached w dname i r -> get dname i w = (Ok r, w).
Proof. intros (ds & Hds & Hc). by rewrite get_eval, Hds, Hc. Qed.






Lemma first_eval v w :
  first v w =
  match datasets w !! source v with
  | None => (Raise (NotFound (source v)), w)
  | Some ds =>
      match view_ids v ds with
      | [] => (Raise (NotFound "first"), w)
      | X :: _ => get (source v) X w
      end
  end.
Proof.
  unfold first, get_dataset. run_monad.
  destruct (datasets w !! source v) as [ds|]; [|done]. by destruct (view_ids v ds).
Qed.



(** *** Broadcasting over the cached objects *)

Lemma broadcast_notin f refs (h : gmap nat Sample) r :
  r ∉ refs -> broadcast f refs h !! r = h !! r.
Proof.
  induction refs as [|x refs IH]; simpl; [done|].
  intros Hn. apply not_elem_of_cons in Hn as [Hne Hn].
  rewrite lookup_alter_ne by done. auto.
Qed.

Lemma broadcast_in f refs (h : gmap nat Sample) r :
  (forall smp, f (f smp) = f smp) ->
  r ∈ refs -> broadcast f refs h !! r = f <$> h !! r.
Proof.
  intros Hidem. induction refs as [|x refs IH]; simpl.
  - intros Hin. by apply elem_of_nil in Hin.
  - intros Hin. destruct (decide (x = r)) as [->|Hne].
    + rewrite lookup_alter_eq.
      destruct (decide (r ∈ refs)) as [Hr|Hr].
      * rewrite IH by done. destruct (h !! r); simpl; [|done]. by rewrite Hidem.
      * by rewrite broadcast_notin.
    + rewrite lookup_alter_ne by done. apply IH.
      apply elem_of_cons in Hin as [?|?]; [congruence|done].
Qed.

Lemma cached_refs_elem ds i r : cache ds !! i = Some r -> r ∈ cached_refs ds.
Proof.
  intros H. unfold cached_refs. apply list_elem_of_fmap. exists (i, r). split; [done|].
  by apply elem_of_map_to_list.
Qed.

Lemma elem_cached_refs ds r : r ∈ cached_refs ds -> exists i, cache ds !! i = Some r.
Proof.
  unfold cached_refs. intros H. apply list_elem_of_fmap in H as ([i r'] & -> & Hin).
  exists i. by apply elem_of_map_to_list in Hin.
Qed.

Lemma expose_idem new smp : expose new (expose new smp) = expose new smp.
Proof.
  unfold expose. simpl. f_equal. by rewrite (assoc (∪)), (idemp (∪)).
Qed.

(** *** What a well-formed world guarantees *)

Lemma forallb_map_to_list `{Countable K} {V} (P : K * V -> bool) (m : gmap K V) k v :
  forallb P (map_to_list m) = true -> m !! k = Some v -> P (k, v) = true.
Proof.
  intros Hall Hk. rewrite forallb_forall in Hall. apply Hall.
  apply list_elem_of_In. by apply elem_of_map_to_list.
Qed.

Lemma forallb_map_to_list_intro `{Countable K} {V} (P : K * V -> bool) (m : gmap K V) :
  (forall k v, m !! k = Some v -> P (k, v) = true) -> forallb P (map_to_list m) = true.
Proof.
  intros Hall. apply forallb_forall. intros [k v] Hin.
  apply Hall. apply elem_of_map_to_list. by apply list_elem_of_In.
Qed.

(** the check decides the invariant *)
Lemma wf_WF w : wf w = true <-> WF w.
Proof.
  unfold wf, WF. rewrite andb_true_iff. split.
  - intros [Hh Hd]. split; [|split].
    + intros r smp Hr.
      pose proof (forallb_map_to_list _ _ _ _ Hh Hr) as Hok. simpl in Hok.
      apply andb_true_iff in Hok as [Hlt Hok]. apply Nat.ltb_lt in Hlt. split; [done|].
      destruct (id smp) as [i|], (dataset_name smp) as [dname|]; try done.
      apply andb_true_iff in Hok as [Hi Hok]. apply Nat.ltb_lt in Hi. split; [done|].
      unfold cached. destruct (datasets w !! dname) as [ds|]; [|done].
      apply bool_decide_eq_true in Hok. eauto.
    + intros dname i r (ds & Hds & Hc).
      pose proof (forallb_map_to_list _ _ _ _ Hd Hds) as Hok. unfold dataset_ok in Hok.
      apply andb_true_iff in Hok as [Hok _].
      pose proof (forallb_map_to_list _ _ _ _ Hok Hc) as Hok'. unfold cache_entry_ok in Hok'.
      destruct (heap w !! r) as [smp|]; [|done].
      apply andb_true_iff in Hok' as [H1 H2].
      apply bool_decide_eq_true in H1, H2. eauto.
    + intros dname ds i doc Hds Hdoc.
      pose proof (forallb_map_to_list _ _ _ _ Hd Hds) as Hok. unfold dataset_ok in Hok.
      apply andb_true_iff in Hok as [_ Hok].
      pose proof (forallb_map_to_list _ _ _ _ Hok Hdoc) as Hok'.
      by apply Nat.ltb_lt in Hok'.
  - intros (Hh & Hc & Hd). split.
    + apply forallb_map_to_list_intro. intros r smp Hr.
      destruct (Hh r smp Hr) as [Hlt Hok]. simpl.
      apply andb_true_iff. split; [by apply Nat.ltb_lt|].
      destruct (id smp) as [i|], (dataset_name smp) as [dname|]; try done.
      destruct Hok as [Hi (ds & Hds & Hci)]. rewrite Hds.
      apply andb_true_iff. split; [by apply Nat.ltb_lt|by apply bool_decide_eq_true].
    + apply forallb_map_to_list_intro. intros dname ds Hds. unfold dataset_ok.
      apply andb_true_iff. split.
      * apply forallb_map_to_list_intro. intros i r Hci. unfold cache_entry_ok.
        destruct (Hc dname i r) as (smp & -> & Hid & Hdn); [by exists ds|].
        apply andb_true_iff. split; by apply bool_decide_eq_true.
      * apply forallb_map_to_list_intro. intros i doc Hdoc. unfold doc_entry_ok. simpl.
        apply Nat.ltb_lt. eauto.
Qed.

Lemma wf_sample w r smp :
  wf w = true -> heap w !! r = Some smp ->
  r < next_ref w
  /\ match id smp, dataset_name smp with
     | Some i, Some dname => i < next_id w /\ cached w dname i r
     | None, None => True
     | _, _ => False
     end.
Proof. intros Hwf. apply wf_WF in Hwf as (Hh & _). apply Hh. Qed.

Lemma wf_cached w dname i r :
  wf w = true -> cached w dname i r ->
  exists smp, heap w !! r = Some smp /\ id smp = Some i /\ dataset_name smp = Some dname.
Proof. intros Hwf. apply wf_WF in Hwf as (_ & Hc & _). apply Hc. Qed.

Lemma add_fields_eval dname new w :
  add_fields dname new w =
  match datasets w !! dname with
  | None => (Raise (NotFound dname), w)
  | Some ds =>
      (Ok tt,
       mkWorld (broadcast (expose (default_value <$> new)) (cached_refs ds) (heap w))
         (next_ref w)
         (<[dname := mkDataset (new ∪ schema ds) (cache ds) (docs ds)]> (datasets w))
         (next_id w))
  end.
Proof.
  unfold_core. run_monad. by destruct (datasets w !! dname).
Qed.

Lemma add_field_ok_inv dname fname k w w' :
  add_field dname fname k w = (Ok tt, w') ->
  exists ds,
    datasets w !! dname = Some ds
    /\ schema ds !! fname = None
    /\ reserved fname = false
    /\ w' = mkWorld
              (broadcast (expose {[ fname := default_value k ]}) (cached_refs ds) (heap w))
              (next_ref w)
              (<[dname := mkDataset (<[fname := k]> (schema ds)) (cache ds) (docs ds)]>
                 (datasets w))
              (next_id w).
Proof.
  unfold add_field. unfold mbind at 1, M_bind at 1. unfold get_dataset. run_monad.
  destruct (datasets w !! dname) as [ds|] eqn:Hds; [|discriminate].
  destruct (bool_decide (is_Some (schema ds !! fname))) eqn:Hs; [discriminate|].
  destruct (reserved fname) eqn:Hr; [discriminate|]. simpl.
  rewrite add_fields_eval, Hds. intros [= <-]. exists ds. repeat split; auto.
  - apply bool_decide_eq_false in Hs. by apply eq_None_not_Some.
  - by rewrite map_fmap_singleton, (insert_union_singleton_l (schema ds)).
Qed.

Lemma get_field_eval r fname w :
  get_field r fname w =
  match heap w !! r with
  | None => (Raise (NotFound "sample object"), w)
  | Some smp =>
      match fields smp !! fname with
      | None => (Raise (NotFound fname), w)
      | Some v => (Ok v, w)
      end
  end.
Proof.
  unfold get_field, deref. run_monad.
  destruct (heap w !! r) as [smp|]; [|done]. by destruct (fields smp !! fname).
Qed.

(** C9: schema broadcast. After [add_field] succeeds, every object that was
    cached for the dataset is still the cached one (no re-fetch) and exposes
    the new field with the default of its kind: an empty sequence for list
    and array kinds, None otherwise. *)
Theorem add_field_broadcasts_default dname fname k w w' :
  wf w = true ->
  add_field dname fname k w = (Ok tt, w') ->
  forall i r,
    cached w dname i r ->
    get dname i w' = (Ok r, w')
    /\ get_field r fname w' = (Ok (default_value k), w')
    /\ (k = ListField \/ k = ArrayField -> get_field r fname w' = (Ok (VSeq []), w'))
    /\ (k <> ListField -> k <> ArrayField -> get_field r fname w' = (Ok VNone, w')).
Proof.
  intros Hwf Hadd i r Hc.
  destruct (add_field_ok_inv _ _ _ _ _ Hadd) as (ds & Hds & Hfree & Hres & Hw').
  destruct (wf_cached _ _ _ _ Hwf Hc) as (smp & Hsmp & Hid & Hdn).
  destruct Hc as (ds' & Hds' & Hci). rewrite Hds in Hds'. injection Hds' as <-.
  assert (Hfield : get_field r fname w' = (Ok (default_value k), w')).
  { rewrite get_field_eval. rewrite Hw' at 1. simpl.
    rewrite broadcast_in; [|apply expose_idem|by eapply cached_refs_elem].
    rewrite Hsmp. simpl.
    rewrite (lookup_union_Some_l _ _ _ (default_value k)); [done|].
    apply lookup_singleton_eq. }
  split; [|split; [|split]].
  - apply get_cached. rewrite Hw'. unfold cached. simpl. rewrite lookup_insert_eq. eauto.
  - exact Hfield.
  - intros [-> | ->]; exact Hfield.
  - intros H1 H2. rewrite Hfield. by destruct k.
Qed.

Lemma add_field_broadcasts_default_witness :
  let w' := snd (add_field "d1" "list_field" ListField demo_world) in
  get "d1" 0 w' = (Ok 0, w') /\ get_field 0 "list_field" w' = (Ok (VSeq []), w').
Proof.
  intros w'.
  destruct (add_field_broadcasts_default "d1" "list_field" ListField demo_world w') with (i := 0) (r := 0) as (H1 & H2 & _).
  - vm_compute. reflexivity.
  - vm_compute. reflexivity.
  - eexists. split; vm_compute; reflexivity.
  - split; assumption.
Defined.

(** *** Adding samples *)

Lemma attach_eval dname r expand_schema w :
  attach dname r expand_schema w =
  match heap w !! r with
  | None => (Raise (NotFound "sample object"), w)
  | Some smp =>
      match datasets w !! dname with
      | None => (Raise (NotFound dname), w)
      | Some ds =>
          match new_descriptors (schema ds) expand_schema (map_to_list (fields smp)) with
          | Raise e => (Raise e, w)
          | Ok new => (Ok (next_id w), attached w dname ds r (fields smp) new)
          end
      end
  end.
Proof.
  unfold attach. unfold deref, get_dataset. run_monad.
  destruct (heap w !! r) as [smp|]; [|done].
  destruct (datasets w !! dname) as [ds|] eqn:Hds; [|done].
  destruct (new_descriptors _ _ _) as [new|]; [|done]. simpl.
  rewrite add_fields_eval, Hds. simpl.
  rewrite lookup_insert_eq. unfold_core. run_monad.
  unfold attached. by rewrite insert_insert_eq.
Qed.

Lemma add_eval dname r expand_schema w :
  add dname r expand_schema w =
  match heap w !! r with
  | None => (Raise (NotFound "sample object"), w)
  | Some smp =>
      match datasets w !! dname with
      | None => (Raise (NotFound dname), w)
      | Some ds =>
          match new_descriptors (schema ds) expand_schema (map_to_list (fields smp)) with
          | Raise e => (Raise e, w)
          | Ok new =>
              match dataset_name smp with
              | None => (Ok (next_id w), attached w dname ds r (fields smp) new)
              | Some _ =>
                  let w0 := mkWorld (<[next_ref w := mkSample None None (fields smp)]> (heap w))
                              (S (next_ref w)) (datasets w) (next_id w) in
                  (Ok (next_id w), attached w0 dname ds (next_ref w) (fields smp) new)
              end
          end
      end
  end.
Proof.
  unfold add. unfold mbind at 1, M_bind at 1, deref. run_monad.
  destruct (heap w !! r) as [smp|] eqn:Hr; [|done].
  unfold get_dataset. run_monad.
  destruct (datasets w !! dname) as [ds|] eqn:Hds; [|done].
  destruct (new_descriptors _ _ _) as [new|] eqn:Hnew; [|done].
  destruct (dataset_name smp).
  - unfold alloc. rewrite attach_eval. simpl.
    rewrite lookup_insert_eq, Hds. simpl. by rewrite Hnew.
  - by rewrite attach_eval, Hr, Hds, Hnew.
Qed.

(** C8: cross-dataset copy. Adding an object attached to D1 into another
    dataset D2 returns an id different from the object's; looking the new id
    up in D2 gives another object, attached to D2, carrying the same field
    values; the original is untouched and is still what D1 returns for its
    id. A detached object is attached in place and is what the dataset
    returns for the new id. *)
Theorem add_copies_attached_and_attaches_detached D2 s smp expand_schema w new_id w' :
  wf w = true ->
  heap w !! s = Some smp ->
  add D2 s expand_schema w = (Ok new_id, w') ->
  (forall D1 i1,
      id smp = Some i1 -> dataset_name smp = Some D1 -> D1 <> D2 ->
      new_id <> i1
      /\ heap w' !! s = Some smp
      /\ get D1 i1 w' = (Ok s, w')
      /\ exists r' copy,
          get D2 new_id w' = (Ok r', w')
          /\ r' <> s
          /\ heap w' !! r' = Some copy
          /\ id copy = Some new_id
          /\ dataset_name copy = Some D2
          /\ forall f v, fields smp !! f = Some v -> fields copy !! f = Some v)
  /\ (dataset_name smp = None ->
      get D2 new_id w' = (Ok s, w')
      /\ exists smp',
          heap w' !! s = Some smp'
          /\ id smp' = Some new_id
          /\ dataset_name smp' = Some D2
          /\ forall f v, fields smp !! f = Some v -> fields smp' !! f = Some v).
Proof.
  intros Hwf Hs. rewrite add_eval, Hs.
  destruct (datasets w !! D2) as [ds2|] eqn:Hds2; [|discriminate].
  destruct (new_descriptors _ _ _) as [new|]; [|discriminate].
  destruct (wf_sample _ _ _ Hwf Hs) as [Hlt Hatt].
  destruct (dataset_name smp) as [D|] eqn:Hdn; intros [= <- <-]; (split; [|intros [=]]).
  - intros D1 i1 Hid [= ->] Hne.
    rewrite Hid in Hatt. destruct Hatt as [Hi1 Hc1].
    assert (Hsref : s <> next_ref w) by lia.
    split; [simpl; lia|]. split; [|split].
    + simpl. rewrite lookup_insert_ne by done.
      rewrite broadcast_notin; [by rewrite lookup_insert_ne|].
      intros Hin. apply elem_cached_refs in Hin as [i Hci].
      destruct (wf_cached w D2 i s Hwf) as (smp2 & Hs2 & _ & Hdn2); [by exists ds2|].
      congruence.
    + apply get_cached. destruct Hc1 as (ds1 & Hds1 & Hci1).
      exists ds1. split; [|done]. simpl. by rewrite lookup_insert_ne.
    + exists (next_ref w). eexists. split; [|split; [|split; [|split; [|split]]]].
      * apply get_cached. unfold cached. simpl. rewrite lookup_insert_eq.
        eexists. split; [reflexivity|]. simpl. by rewrite lookup_insert_eq.
      * lia.
      * simpl. by rewrite lookup_insert_eq.
      * reflexivity.
      * reflexivity.
      * simpl. intros f v Hf. by apply lookup_union_Some_l.
  - intros D1 i1 _ [=].
  - split.
    + apply get_cached. unfold cached. simpl. rewrite lookup_insert_eq.
      eexists. split; [reflexivity|]. simpl. by rewrite lookup_insert_eq.
    + eexists. split; [|split; [|split]].
      * simpl. by rewrite lookup_insert_eq.
      * reflexivity.
      * reflexivity.
      * simpl. intros f v Hf. by apply lookup_union_Some_l.
Qed.

Lemma add_copies_attached_and_attaches_detached_witness :
  let w' := snd (add "d2" 0 true demo_world) in
  1 <> 0
  /\ get "d1" 0 w' = (Ok 0, w')
  /\ exists r', get "d2" 1 w' = (Ok r', w') /\ r' <> 0.
Proof.
  intros w'.
  destruct (add_copies_attached_and_attaches_detached "d2" 0
               (mkSample (Some 0) (Some "d1") (demo_fields ∪ (default_value <$> default_schema)))
               true demo_world 1 w')
    as [Hatt _].
  - vm_compute. reflexivity.
  - vm_compute. reflexivity.
  - vm_compute. reflexivity.
  - destruct (Hatt "d1" 0) as (Hid & _ & Hget1 & r' & copy & Hget2 & Hne & _).
    + reflexivity.
    + reflexivity.
    + discriminate.
    + split; [exact Hid|]. split; [exact Hget1|]. exists r'. split; assumption.
Defined.

(** *** The invariants are preserved *)

Lemma broadcast_lookup f refs (h : gmap nat Sample) r :
  (forall smp, id (f smp) = id smp /\ dataset_name (f smp) = dataset_name smp) ->
  match broadcast f refs h !! r, h !! r with
  | Some smp', Some smp => id smp' = id smp /\ dataset_name smp' = dataset_name smp
  | None, None => True
  | _, _ => False
  end.
Proof.
  intros Hf. induction refs as [|x refs IH]; simpl.
  - by destruct (h !! r).
  - rewrite lookup_alter. destruct (decide (x = r)) as [->|]; [|done].
    destruct (broadcast f refs h !! r) as [smp'|], (h !! r) as [smp|]; simpl; try done.
    destruct (Hf smp') as [-> ->]. done.
Qed.

Lemma cached_insert w dname ds ds' dn i r h nr ni :
  datasets w !! dname = Some ds -> cache ds' = cache ds ->
  cached (mkWorld h nr (<[dname := ds']> (datasets w)) ni) dn i r <-> cached w dn i r.
Proof.
  intros Hds Hc. unfold cached. simpl. destruct (decide (dname = dn)) as [->|Hne].
  - rewrite lookup_insert_eq. split.
    + intros (x & [= <-] & Hx). exists ds. by rewrite <- Hc.
    + intros (x & Hx & Hi). exists ds'. rewrite Hc. split; [done|]. congruence.
  - by rewrite lookup_insert_ne.
Qed.

Lemma WF_broadcast w f refs dname ds ds' :
  WF w ->
  (forall smp, id (f smp) = id smp /\ dataset_name (f smp) = dataset_name smp) ->
  datasets w !! dname = Some ds ->
  cache ds' = cache ds ->
  (forall i, is_Some (docs ds' !! i) -> is_Some (docs ds !! i)) ->
  WF (mkWorld (broadcast f refs (heap w)) (next_ref w) (<[dname := ds']> (datasets w)) (next_id w)).
Proof.
  intros (Hh & Hc & Hd) Hf Hds Hcache Hdocs. split; [|split]; simpl.
  - intros r smp' Hr. pose proof (broadcast_lookup f refs (heap w) r Hf) as Hb.
    rewrite Hr in Hb. destruct (heap w !! r) as [smp|] eqn:Hr0; [|done].
    destruct Hb as [-> ->]. destruct (Hh r smp Hr0) as [Hlt Hok]. split; [done|].
    destruct (id smp), (dataset_name smp); try done.
    destruct Hok as [Hi Hca]. split; [done|].
    by apply (cached_insert w dname ds ds' _ _ _ _ _ _ Hds Hcache).
  - intros dn i r Hca. apply (cached_insert w dname ds ds' _ _ _ _ _ _ Hds Hcache) in Hca.
    destruct (Hc dn i r Hca) as (smp & Hr & Hid & Hdn).
    pose proof (broadcast_lookup f refs (heap w) r Hf) as Hb. rewrite Hr in Hb.
    destruct (broadcast f refs (heap w) !! r) as [smp'|]; [|done].
    destruct Hb as [Hi' Hd']. exists smp'. split; [done|]. split; congruence.
  - intros dn ds0 i doc Hdn Hdoc. destruct (decide (dname = dn)) as [->|Hne].
    + rewrite lookup_insert_eq in Hdn. injection Hdn as <-.
      destruct (Hdocs i) as [doc0 Hdoc0]; [by eexists|]. eauto.
    + rewrite lookup_insert_ne in Hdn by done. eauto.
Qed.

Lemma WF_alloc_detached w fs :
  WF w ->
  WF (mkWorld (<[next_ref w := mkSample None None fs]> (heap w)) (S (next_ref w))
        (datasets w) (next_id w)).
Proof.
  intros (Hh & Hc & Hd). split; [|split]; simpl.
  - intros r smp Hr. destruct (decide (next_ref w = r)) as [<-|Hne].
    + rewrite lookup_insert_eq in Hr. injection Hr as <-. simpl. split; [lia|done].
    + rewrite lookup_insert_ne in Hr by done. destruct (Hh r smp Hr) as [Hlt Hok].
      split; [lia|]. exact Hok.
  - intros dn i r Hca. destruct (Hc dn i r Hca) as (smp & Hr & Hid & Hdn).
    exists smp. split; [|done]. rewrite lookup_insert_ne; [done|].
    destruct (Hh r smp Hr). lia.
  - exact Hd.
Qed.

Lemma WF_attached w dname ds r smp0 fs0 new :
  WF w ->
  heap w !! r = Some smp0 -> dataset_name smp0 = None ->
  datasets w !! dname = Some ds ->
  WF (attached w dname ds r fs0 new).
Proof.
  intros HWF Hr0 Hdet Hds.
  set (f := expose (default_value <$> (list_to_map new : gmap string Kind))).
  assert (Hf : forall smp, id (f smp) = id smp /\ dataset_name (f smp) = dataset_name smp)
    by done.
  pose proof (WF_broadcast w f (cached_refs ds) dname ds
                (mkDataset (list_to_map new ∪ schema ds) (cache ds) (docs ds))
                HWF Hf Hds eq_refl (fun i H => H)) as (Hh & Hc & Hd).
  destruct HWF as (Hh0 & Hc0 & Hd0).
  assert (Hnotr : forall dn i, ~ cached w dn i r).
  { intros dn i Hca. destruct (Hc0 dn i r Hca) as (smp & Hr & _ & Hdn). congruence. }
  set (mid := mkDataset (list_to_map new ∪ schema ds) (cache ds) (docs ds)) in *.
  assert (Hmid : forall dn i r1 h nr ni,
             cached (mkWorld h nr (<[dname := mid]> (datasets w)) ni) dn i r1 <-> cached w dn i r1).
  { intros. by apply (cached_insert w dname ds mid). }
  unfold attached. fold f. split; [|split]; simpl.
  - intros r1 smp Hr1. destruct (decide (r = r1)) as [<-|Hne].
    + rewrite lookup_insert_eq in Hr1. injection Hr1 as <-. simpl.
      split; [by destruct (Hh0 r smp0 Hr0)|]. split; [lia|].
      unfold cached. simpl. rewrite lookup_insert_eq. eexists. split; [done|].
      simpl. by rewrite lookup_insert_eq.
    + rewrite lookup_insert_ne in Hr1 by done. destruct (Hh r1 smp Hr1) as [Hlt Hok].
      split; [done|]. destruct (id smp) as [i|], (dataset_name smp) as [dn|]; try done.
      destruct Hok as [Hi Hca]. simpl in Hi. split; [lia|].
      apply Hmid in Hca. destruct Hca as (x & Hx & Hxi). unfold cached. simpl.
      destruct (decide (dname = dn)) as [->|Hdn].
      * rewrite Hds in Hx. injection Hx as <-.
        rewrite lookup_insert_eq. eexists. split; [done|]. simpl.
        rewrite lookup_insert_ne; [done|lia].
      * rewrite lookup_insert_ne by done. eauto.
  - intros dn i r1 (x & Hx & Hxi). simpl in Hx. destruct (decide (dname = dn)) as [->|Hdn].
    + rewrite lookup_insert_eq in Hx. injection Hx as <-. simpl in Hxi.
      destruct (decide (next_id w = i)) as [<-|Hi].
      * rewrite lookup_insert_eq in Hxi. injection Hxi as <-.
        rewrite lookup_insert_eq. eauto.
      * rewrite lookup_insert_ne in Hxi by done.
        assert (Hca : cached w dn i r1) by (by exists ds).
        assert (r <> r1) by (intros ->; by eapply Hnotr).
        rewrite lookup_insert_ne by done. apply (Hc dn i r1). by apply Hmid.
    + rewrite lookup_insert_ne in Hx by done.
      assert (Hca : cached w dn i r1) by (by exists x).
      assert (r <> r1) by (intros ->; by eapply Hnotr).
      rewrite lookup_insert_ne by done. apply (Hc dn i r1). by apply Hmid.
  - intros dn ds0 i doc Hdn Hdoc. destruct (decide (dname = dn)) as [->|Hne].
    + rewrite lookup_insert_eq in Hdn. injection Hdn as <-. simpl in Hdoc.
      destruct (decide (next_id w = i)) as [<-|Hi]; [lia|].
      rewrite lookup_insert_ne in Hdoc by done. specialize (Hd0 _ _ _ _ Hds Hdoc). lia.
    + rewrite lookup_insert_ne in Hdn by done. specialize (Hd0 _ _ _ _ Hdn Hdoc). lia.
Qed.

Lemma WF_empty : WF empty_world.
Proof.
  split; [|split]; simpl.
  - intros r smp Hr. by rewrite lookup_empty in Hr.
  - intros dn i r (ds & Hds & _). simpl in Hds. by rewrite lookup_empty in Hds.
  - intros dn ds i doc Hds. by rewrite lookup_empty in Hds.
Qed.

Lemma WF_create_dataset dname w : WF w -> WF (snd (create_dataset dname w)).
Proof.
  intros HWF. unfold create_dataset, put_dataset. run_monad.
  destruct (datasets w !! dname) as [ds|] eqn:Hds; [done|]. simpl.
  destruct HWF as (Hh & Hc & Hd).
  assert (Hca : forall dn i r,
             cached (mkWorld (heap w) (next_ref w)
                       (<[dname := mkDataset default_schema ∅ ∅]> (datasets w)) (next_id w)) dn i r
             <-> cached w dn i r).
  { intros dn i r. unfold cached. simpl. destruct (decide (dname = dn)) as [->|Hne].
    - rewrite lookup_insert_eq, Hds. split.
      + intros (x & [= <-] & Hx). simpl in Hx. by rewrite lookup_empty in Hx.
      + by intros (x & [=] & _).
    - by rewrite lookup_insert_ne. }
  split; [|split]; simpl.
  - intros r smp Hr. destruct (Hh r smp Hr) as [Hlt Hok]. split; [done|].
    destruct (id smp), (dataset_name smp); try done.
    destruct Hok. split; [done|]. by apply Hca.
  - intros dn i r H. apply Hca in H. by apply Hc.
  - intros dn ds i doc Hdn Hdoc. destruct (decide (dname = dn)) as [->|Hne].
    + rewrite lookup_insert_eq in Hdn. injection Hdn as <-. simpl in Hdoc.
      by rewrite lookup_empty in Hdoc.
    + rewrite lookup_insert_ne in Hdn by done. eauto.
Qed.

Lemma WF_new_sample fs w : WF w -> WF (snd (new_sample fs w)).
Proof. intros HWF. unfold new_sample, alloc. simpl. by apply WF_alloc_detached. Qed.

Lemma WF_add dname r expand_schema w : WF w -> WF (snd (add dname r expand_schema w)).
Proof.
  intros HWF. rewrite add_eval.
  destruct (heap w !! r) as [smp|] eqn:Hr; [|done].
  destruct (datasets w !! dname) as [ds|] eqn:Hds; [|done].
  destruct (new_descriptors _ _ _) as [new|]; [|done].
  destruct (dataset_name smp) as [dn|] eqn:Hdn; simpl.
  - eapply (WF_attached _ dname ds (next_ref w) (mkSample None None (fields smp))).
    + by apply WF_alloc_detached.
    + simpl. by rewrite lookup_insert_eq.
    + done.
    + done.
  - by eapply WF_attached.
Qed.

Lemma WF_get dname i w : WF w -> WF (snd (get dname i w)).
Proof.
  intros HWF. rewrite get_eval.
  destruct (datasets w !! dname) as [ds|] eqn:Hds; [|done].
  destruct (cache ds !! i) as [r|] eqn:Hci; [done|].
  destruct (docs ds !! i) as [doc|] eqn:Hdoc; [|done]. simpl.
  destruct HWF as (Hh & Hc & Hd).
  assert (Hfresh : forall dn j r, cached w dn j r -> r <> next_ref w).
  { intros dn j r Hca. destruct (Hc dn j r Hca) as (smp & Hr & _).
    destruct (Hh r smp Hr). lia. }
  split; [|split]; simpl.
  - intros r smp Hr. destruct (decide (next_ref w = r)) as [<-|Hne].
    + rewrite lookup_insert_eq in Hr. injection Hr as <-. simpl. split; [lia|].
      split; [by eapply Hd|]. unfold cached. simpl. rewrite lookup_insert_eq.
      eexists. split; [done|]. simpl. by rewrite lookup_insert_eq.
    + rewrite lookup_insert_ne in Hr by done. destruct (Hh r smp Hr) as [Hlt Hok].
      split; [lia|]. destruct (id smp) as [j|], (dataset_name smp) as [dn|]; try done.
      destruct Hok as [Hj (x & Hx & Hxj)]. split; [done|]. unfold cached. simpl.
      destruct (decide (dname = dn)) as [->|Hdn].
      * rewrite Hds in Hx. injection Hx as <-. rewrite lookup_insert_eq.
        eexists. split; [done|]. simpl. rewrite lookup_insert_ne; [done|congruence].
      * rewrite lookup_insert_ne by done. eauto.
  - intros dn j r (x & Hx & Hxj). simpl in Hx. destruct (decide (dname = dn)) as [->|Hdn].
    + rewrite lookup_insert_eq in Hx. injection Hx as <-. simpl in Hxj.
      destruct (decide (i = j)) as [<-|Hij].
      * rewrite lookup_insert_eq in Hxj. injection Hxj as <-.
        rewrite lookup_insert_eq. eauto.
      * rewrite lookup_insert_ne in Hxj by done.
        assert (Hca : cached w dn j r) by (by exists ds).
        rewrite lookup_insert_ne by (symmetry; by eapply Hfresh). by apply Hc.
    + rewrite lookup_insert_ne in Hx by done.
      assert (Hca : cached w dn j r) by (by exists x).
      rewrite lookup_insert_ne by (symmetry; by eapply Hfresh). by apply Hc.
  - intros dn ds0 j doc0 Hdn Hdoc0. destruct (decide (dname = dn)) as [->|Hne].
    + rewrite lookup_insert_eq in Hdn. injection Hdn as <-. simpl in Hdoc0. eauto.
    + rewrite lookup_insert_ne in Hdn by done. eauto.
Qed.

Lemma WF_add_field dname fname k w : WF w -> WF (snd (add_field dname fname k w)).
Proof.
  intros HWF. unfold add_field. unfold mbind at 1, M_bind at 1. unfold get_dataset. run_monad.
  destruct (datasets w !! dname) as [ds|] eqn:Hds; [|done].
  destruct (_ || _); [done|]. rewrite add_fields_eval, Hds. simpl.
  by apply (WF_broadcast w _ _ dname ds).
Qed.

Lemma WF_delete_field dname fname w : WF w -> WF (snd (delete_field dname fname w)).
Proof.
  intros HWF. unfold delete_field, get_dataset, put_dataset, set_heap. run_monad.
  destruct (datasets w !! dname) as [ds|] eqn:Hds; [|done].
  destruct (reserved fname); [done|].
  destruct (schema ds !! fname); [|done]. simpl.
  apply (WF_broadcast w _ _ dname ds); try done.
  simpl. intros i. rewrite lookup_fmap. by destruct (docs ds !! i).
Qed.

Lemma WF_remove dname i w : WF w -> WF (snd (remove dname i w)).
Proof.
  intros HWF. unfold remove, get_dataset, put_dataset, set_heap. run_monad.
  destruct (datasets w !! dname) as [ds|] eqn:Hds; [|done].
  destruct HWF as (Hh & Hc & Hd).
  set (ds' := mkDataset (schema ds) (delete i (cache ds)) (delete i (docs ds))).
  assert (Hdocs : forall dn ds0 j doc (ni := next_id w),
             (<[dname := ds']> (datasets w)) !! dn = Some ds0 -> docs ds0 !! j = Some doc ->
             j < ni).
  { intros dn ds0 j doc ni Hdn Hdoc. destruct (decide (dname = dn)) as [->|Hne].
    - rewrite lookup_insert_eq in Hdn. injection Hdn as <-. simpl in Hdoc.
      apply lookup_delete_Some in Hdoc as [_ Hdoc]. eauto.
    - rewrite lookup_insert_ne in Hdn by done. eauto. }
  assert (Hkeep : forall h nr ni dn j r,
             cached (mkWorld h nr (<[dname := ds']> (datasets w)) ni) dn j r
             <-> cached w dn j r /\ ~ (dn = dname /\ j = i)).
  { intros h nr ni dn j r. unfold cached. simpl. destruct (decide (dname = dn)) as [->|Hne].
    - rewrite lookup_insert_eq. split.
      + intros (x & [= <-] & Hx). simpl in Hx. apply lookup_delete_Some in Hx as [Hij Hx].
        split; [eauto|]. intros [_ ->]. done.
      + intros [(x & Hx & Hxj) Hn]. rewrite Hds in Hx. injection Hx as <-.
        eexists. split; [done|]. simpl. rewrite lookup_delete_ne; [done|].
        intros ->. by apply Hn.
    - rewrite lookup_insert_ne by done. split; [|by intros [? _]].
      intros H. split; [done|]. intros [-> _]. done. }
  destruct (cache ds !! i) as [r|] eqn:Hci; simpl.
  - assert (Hcr : cached w dname i r) by (by exists ds).
    destruct (Hc _ _ _ Hcr) as (smp0 & Hr0 & Hid0 & Hdn0).
    split; [|split]; simpl; [| |exact Hdocs].
    + intros r1 smp Hr1. rewrite lookup_alter in Hr1.
      destruct (decide (r = r1)) as [<-|Hne].
      * rewrite Hr0 in Hr1. injection Hr1 as <-. simpl.
        split; [by destruct (Hh r smp0 Hr0)|done].
      * destruct (Hh r1 smp Hr1) as [Hlt Hok]. split; [done|].
        destruct (id smp) as [j|] eqn:Hj, (dataset_name smp) as [dn|] eqn:Hdn; try done.
        destruct Hok as [Hjlt Hca]. split; [done|]. apply Hkeep. split; [done|].
        intros [-> ->]. destruct Hca as (x & Hx & Hxj). rewrite Hds in Hx.
        injection Hx as <-. congruence.
    + intros dn j r1 Hca. apply Hkeep in Hca as [Hca Hn].
      destruct (Hc dn j r1 Hca) as (smp & Hr1 & Hid & Hdn).
      rewrite lookup_alter. destruct (decide (r = r1)) as [<-|Hne]; [|eauto].
      exfalso. apply Hn. split; congruence.
  - split; [|split]; simpl; [| |exact Hdocs].
    + intros r1 smp Hr1. destruct (Hh r1 smp Hr1) as [Hlt Hok]. split; [done|].
      destruct (id smp) as [j|] eqn:Hj, (dataset_name smp) as [dn|] eqn:Hdn; try done.
      destruct Hok as [Hjlt Hca]. split; [done|]. apply Hkeep. split; [done|].
      intros [-> ->]. destruct Hca as (x & Hx & Hxj). rewrite Hds in Hx.
      injection Hx as <-. congruence.
    + intros dn j r1 Hca. apply Hkeep in Hca as [Hca Hn]. by apply Hc.
Qed.

Lemma WF_mapM_get dname ids : forall w, WF w -> WF (snd (mapM (get dname) ids w)).
Proof.
  induction ids as [|j ids IH]; intros w HWF; [done|].
  simpl. run_monad. pose proof (WF_get dname j w HWF) as Hg.
  destruct (get dname j w) as [[b|e] w1]; [|done]. simpl in Hg.
  specialize (IH w1 Hg). destruct (mapM (get dname) ids w1) as [[bs|e] w2]; done.
Qed.

Lemma WF_first v w : WF w -> WF (snd (first v w)).
Proof.
  intros HWF. rewrite first_eval.
  destruct (datasets w !! source v) as [ds|]; [|done].
  destruct (view_ids v ds); [done|]. by apply WF_get.
Qed.

Lemma WF_iter_view v w : WF w -> WF (snd (iter_view v w)).
Proof.
  intros HWF. unfold iter_view, get_dataset. run_monad.
  destruct (datasets w !! source v) as [ds|]; [|done]. by apply WF_mapM_get.
Qed.

(** The check [wf] holds initially and after every operation of the core,
    whether it returns or raises. *)
Theorem wf_preserved :
  wf empty_world = true
  /\ forall w, wf w = true ->
       (forall dname, wf (snd (create_dataset dname w)) = true)
       /\ (forall fs, wf (snd (new_sample fs w)) = true)
       /\ (forall dname r expand_schema, wf (snd (add dname r expand_schema w)) = true)
       /\ (forall dname i, wf (snd (get dname i w)) = true)
       /\ (forall dname i, wf (snd (remove dname i w)) = true)
       /\ (forall dname fname k, wf (snd (add_field dname fname k w)) = true)
       /\ (forall dname fname, wf (snd (delete_field dname fname w)) = true)
       /\ (forall v, wf (snd (first v w)) = true)
       /\ (forall v, wf (snd (iter_view v w)) = true).
Proof.
  split; [by apply wf_WF, WF_empty|].
  intros w Hwf. apply wf_WF in Hwf.
  repeat split; intros; apply wf_WF;
    auto using WF_create_dataset, WF_new_sample, WF_add, WF_get, WF_remove, WF_add_field,
      WF_delete_field, WF_first, WF_iter_view.
Qed.

(** *** Removing samples, deleting fields, expanding the schema *)

Lemma remove_eval dname i w :
  remove dname i w =
  match datasets w !! dname with
  | None => (Raise (NotFound dname), w)
  | Some ds =>
      (Ok tt,
       mkWorld
         (match cache ds !! i with
          | Some r => alter (fun smp => mkSample None None (fields smp)) r (heap w)
          | None => heap w
          end)
         (next_ref w)
         (<[dname := mkDataset (schema ds) (delete i (cache ds)) (delete i (docs ds))]>
            (datasets w))
         (next_id w))
  end.
Proof.
  unfold remove, get_dataset, put_dataset, set_heap. run_monad.
  destruct (datasets w !! dname) as [ds|]; [|done]. by destruct (cache ds !! i).
Qed.

(** Detachment (test_dataset_remove_samples, test_add_remove_sample):
    removing a cached sample succeeds, leaves the object with no id and no
    dataset but with its field values, leaves every other object alone, and
    the id can no longer be looked up. *)
Theorem remove_detaches_the_sample dname i r smp w :
  cached w dname i r ->
  heap w !! r = Some smp ->
  fst (remove dname i w) = Ok tt
  /\ heap (snd (remove dname i w)) !! r = Some (mkSample None None (fields smp))
  /\ (forall r', r' <> r -> heap (snd (remove dname i w)) !! r' = heap w !! r')
  /\ get dname i (snd (remove dname i w))
     = (Raise (NotFound "sample id"), snd (remove dname i w)).
Proof.
  intros (ds & Hds & Hci) Hr. rewrite remove_eval, Hds, Hci. simpl.
  split; [done|]. split; [|split].
  - by rewrite lookup_alter_eq, Hr.
  - intros r' Hne. by rewrite lookup_alter_ne.
  - rewrite get_eval. simpl. rewrite lookup_insert_eq. simpl.
    by rewrite !lookup_delete_eq.
Qed.

Lemma remove_detaches_the_sample_witness :
  heap (snd (remove "d1" 0 demo_world)) !! 0
  = Some (mkSample None None (demo_fields ∪ (default_value <$> default_schema))).
Proof.
  refine (proj1 (proj2 (remove_detaches_the_sample "d1" 0 0
            (mkSample (Some 0) (Some "d1") (demo_fields ∪ (default_value <$> default_schema)))
            demo_world _ _))).
  - eexists. split; vm_compute; reflexivity.
  - vm_compute. reflexivity.
Defined.

Lemma purge_idem fname smp : purge fname (purge fname smp) = purge fname smp.
Proof. unfold purge. simpl. f_equal. by rewrite delete_delete_eq. Qed.

Lemma delete_field_ok_inv dname fname w w' :
  delete_field dname fname w = (Ok tt, w') ->
  exists ds k,
    datasets w !! dname = Some ds
    /\ schema ds !! fname = Some k
    /\ reserved fname = false
    /\ w' = mkWorld (broadcast (purge fname) (cached_refs ds) (heap w)) (next_ref w)
              (<[dname := mkDataset (delete fname (schema ds)) (cache ds)
                            (delete fname <$> docs ds)]> (datasets w))
              (next_id w).
Proof.
  unfold delete_field, get_dataset, put_dataset, set_heap. run_monad.
  destruct (datasets w !! dname) as [ds|] eqn:Hds; [|done].
  destruct (reserved fname) eqn:Hres; [done|].
  destruct (schema ds !! fname) as [k|] eqn:Hk; [|done].
  intros [= <-]. exists ds, k. auto.
Qed.

(** Field purge (test_dataset_add_delete_field): after [delete_field]
    succeeds the field is gone from the schema, from every stored document,
    and from every cached object, which is still the cached one; reading the
    field raises. *)
Theorem delete_field_purges_the_field dname fname w w' :
  wf w = true ->
  delete_field dname fname w = (Ok tt, w') ->
  (exists ds',
      datasets w' !! dname = Some ds'
      /\ schema ds' !! fname = None
      /\ forall i doc, docs ds' !! i = Some doc -> doc !! fname = None)
  /\ forall i r,
      cached w dname i r ->
      get dname i w' = (Ok r, w')
      /\ get_field r fname w' = (Raise (NotFound fname), w').
Proof.
  intros Hwf Hdel.
  destruct (delete_field_ok_inv _ _ _ _ Hdel) as (ds & k & Hds & Hk & Hres & Hw').
  split.
  - rewrite Hw'. simpl. rewrite lookup_insert_eq. eexists. split; [done|]. simpl.
    split; [apply lookup_delete_eq|].
    intros i doc. rewrite lookup_fmap. destruct (docs ds !! i) as [doc0|]; [|done].
    simpl. intros [= <-]. apply lookup_delete_eq.
  - intros i r Hc.
    destruct (wf_cached _ _ _ _ Hwf Hc) as (smp & Hsmp & Hid & Hdn).
    destruct Hc as (ds0 & Hds0 & Hci). rewrite Hds in Hds0. injection Hds0 as <-.
    split.
    + apply get_cached. rewrite Hw'. unfold cached. simpl. rewrite lookup_insert_eq. eauto.
    + rewrite get_field_eval. rewrite Hw' at 1. simpl.
      rewrite broadcast_in; [|apply purge_idem|by eapply cached_refs_elem].
      rewrite Hsmp. simpl. by rewrite lookup_delete_eq.
Qed.

Lemma delete_field_purges_the_field_witness :
  let w := snd (add_field "d1" "field1" IntField demo_world) in
  get_field 0 "field1" (snd (delete_field "d1" "field1" w))
  = (Raise (NotFound "field1"), snd (delete_field "d1" "field1" w)).
Proof.
  intros w.
  destruct (delete_field_purges_the_field "d1" "field1" w (snd (delete_field "d1" "field1" w)))
    as [_ Hcached].
  - vm_compute. reflexivity.
  - vm_compute. reflexivity.
  - apply (Hcached 0 0). eexists. split; vm_compute; reflexivity.
Defined.

(** the descriptors [new_descriptors] returns *)
Lemma new_descriptors_keys sch expand_schema entries new :
  new_descriptors sch expand_schema entries = Ok new -> new.*1 `sublist_of` entries.*1.
Proof.
  revert new. induction entries as [|[f v] entries IH]; simpl; intros new.
  - intros [= <-]. constructor.
  - destruct (sch !! f) as [k|].
    + destruct (conforms v k); [|done].
      destruct (new_descriptors sch expand_schema entries) as [l|]; [|done].
      intros [= <-]. apply sublist_cons. by apply IH.
    + destruct expand_schema; [|done]. destruct (infer_kind v) as [k|].
      * destruct (new_descriptors sch true entries) as [l|]; [|done].
        intros [= <-]. simpl. apply sublist_skip. by apply IH.
      * destruct (new_descriptors sch true entries) as [l|]; [|done].
        intros [= <-]. apply sublist_cons. by apply IH.
Qed.

Lemma new_descriptors_elem sch entries new f v k :
  new_descriptors sch true entries = Ok new ->
  (f, v) ∈ entries -> sch !! f = None -> infer_kind v = Some k -> (f, k) ∈ new.
Proof.
  revert new. induction entries as [|[f0 v0] entries IH]; simpl; intros new Hnew Hin Hf Hk.
  - by apply elem_of_nil in Hin.
  - apply elem_of_cons in Hin as [[= <- <-]|Hin].
    + rewrite Hf, Hk in Hnew.
      destruct (new_descriptors sch true entries) as [l|]; [|done].
      injection Hnew as <-. by left.
    + destruct (sch !! f0) as [k0|].
      * destruct (conforms v0 k0); [|done].
        destruct (new_descriptors sch true entries) as [l|]; [|done].
        injection Hnew as <-. by apply IH.
      * destruct (infer_kind v0) as [k0|];
          (destruct (new_descriptors sch true entries) as [l|]; [|done]);
          injection Hnew as <-; [right|]; by apply IH.
Qed.

(** Schema expansion (test_add_sample_expand_schema): adding a detached
    sample that carries a field the schema does not know binds the field to
    the kind inferred from the value; the attached object and the stored
    document keep the value. *)
Theorem add_expands_the_schema dname r smp ds fname v k w new_id w' :
  heap w !! r = Some smp ->
  dataset_name smp = None ->
  datasets w !! dname = Some ds ->
  schema ds !! fname = None ->
  fields smp !! fname = Some v ->
  infer_kind v = Some k ->
  add dname r true w = (Ok new_id, w') ->
  get_field r fname w' = (Ok v, w')
  /\ exists ds' doc,
      datasets w' !! dname = Some ds'
      /\ schema ds' !! fname = Some k
      /\ (forall f k0, schema ds !! f = Some k0 -> schema ds' !! f = Some k0)
      /\ docs ds' !! new_id = Some doc
      /\ doc !! fname = Some v.
Proof.
  intros Hr Hdet Hds Hfree Hfield Hkind. rewrite add_eval, Hr, Hds, Hdet.
  destruct (new_descriptors _ _ _) as [new|] eqn:Hnew; [|done].
  intros [= <- <-].
  assert (Hnk : (list_to_map new : gmap string Kind) !! fname = Some k).
  { apply elem_of_list_to_map_1.
    - apply (sublist_NoDup _ _ (NoDup_fst_map_to_list (fields smp))).
      by eapply new_descriptors_keys.
    - eapply new_descriptors_elem; eauto. by apply elem_of_map_to_list. }
  split.
  - rewrite get_field_eval. simpl. rewrite lookup_insert_eq. simpl.
    by rewrite (lookup_union_Some_l _ _ _ v).
  - simpl. rewrite lookup_insert_eq. do 2 eexists. split; [done|]. simpl.
    split; [by apply lookup_union_Some_l|]. split; [|split].
    + intros f k0 Hf. destruct ((list_to_map new : gmap string Kind) !! f) as [k1|] eqn:Hn.
      * exfalso. apply elem_of_list_to_map_2 in Hn.
        assert (Hsub : forall entries l,
                   new_descriptors (schema ds) true entries = Ok l ->
                   forall g kg, (g, kg) ∈ l -> schema ds !! g = None).
        { clear. induction entries as [|[f0 v0] entries IH]; simpl; intros l Hl g kg Hg.
          - injection Hl as <-. by apply elem_of_nil in Hg.
          - destruct (schema ds !! f0) as [k0|] eqn:Hf0.
            + destruct (conforms v0 k0); [|done].
              destruct (new_descriptors (schema ds) true entries) as [l0|]; [|done].
              injection Hl as <-. eauto.
            + destruct (infer_kind v0) as [k0|];
                (destruct (new_descriptors (schema ds) true entries) as [l0|]; [|done]);
                injection Hl as <-; [|eauto].
              apply elem_of_cons in Hg as [[= -> ->]|Hg]; [done|eauto]. }
        specialize (Hsub _ _ Hnew _ _ Hn). congruence.
      * rewrite lookup_union_r by done. done.
    + by rewrite lookup_insert_eq.
    + by apply lookup_union_Some_l.
Qed.

Lemma add_expands_the_schema_witness :
  let w := snd (new_sample {[ "filepath" := VScalar (SStr "test.png");
                              "test_field" := VScalar (SBool true) ]} demo_world) in
  get_field 1 "test_field" (snd (add "d1" 1 true w))
  = (Ok (VScalar (SBool true)), snd (add "d1" 1 true w)).
Proof.
  intros w.
  refine (proj1 (add_expands_the_schema "d1" 1
            (mkSample None None {[ "filepath" := VScalar (SStr "test.png");
                                   "test_field" := VScalar (SBool true) ]})
            (mkDataset default_schema {[ 0 := 0 ]}
               {[ 0 := demo_fields ∪ (default_value <$> default_schema) ]})
            "test_field" (VScalar (SBool true)) BooleanField w 1 _ _ _ _ _ _ _ _));
    vm_compute; reflexivity.
Defined.

(** *** The unit tests, run on the model *)

(** test_add_from_another_dataset *)
Example test_add_from_another_dataset :
  fst ((create_dataset "d1";;
        create_dataset "d2";;
        sample ← new_sample demo_fields;
        sample_id ← add "d1" sample true;
        got1 ← get "d1" sample_id;
        sample_id2 ← add "d2" sample true;
        sample2 ← get "d2" sample_id2;
        again1 ← get "d1" sample_id;
        s ← deref sample;
        s2 ← deref sample2;
        mret (bool_decide (got1 = sample), bool_decide (sample_id2 <> sample_id),
              bool_decide (again1 = sample), bool_decide (sample2 <> sample),
              dataset_name s, dataset_name s2)) empty_world)
  = Ok (true, true, true, true, Some "d1", Some "d2").
Proof. vm_compute. reflexivity. Qed.

(** test_sample_singletons *)
Example test_sample_singletons :
  fst ((create_dataset "d";;
        sample ← new_sample demo_fields;
        sample_id ← add "d" sample true;
        sample2 ← get "d" sample_id;
        sample3 ← new_sample {[ "filepath" := VScalar (SStr "test2.png") ]};
        _ ← add "d" sample3 true;
        sample4 ← first (view_match (mkView "d" []) "filepath" (VScalar (SStr "test.png")));
        mret (bool_decide (sample2 = sample), bool_decide (sample3 <> sample),
              bool_decide (sample4 = sample))) empty_world)
  = Ok (true, true, true).
Proof. vm_compute. reflexivity. Qed.

(** test_dataset_add_delete_field *)
Example test_dataset_add_delete_field :
  let run (m : Ref -> M World Value) :=
    fst ((create_dataset "d";;
          sample ← new_sample demo_fields;
          _ ← add "d" sample true;
          m sample) empty_world) in
  run (fun sample => get_field sample "field1") = Raise (NotFound "field1")
  /\ run (fun sample => add_field "d" "field1" IntField;; get_field sample "field1") = Ok VNone
  /\ run (fun sample => add_field "d" "field1" IntField;;
                        delete_field "d" "field1";;
                        get_field sample "field1") = Raise (NotFound "field1")
  /\ run (fun sample => add_field "d" "list_field" ListField;;
                        get_field sample "list_field") = Ok (VSeq []).
Proof. vm_compute. repeat split; reflexivity. Qed.

Example demo_world_wf : wf demo_world = true.
Proof. vm_compute. reflexivity. Qed.
